(** * Ticket form prototype: the browser client (frontend/app.js)

    A shallow embedding of the two versions of the client script that the
    repository holds: [frontend/app.js] (identity confirmation and direct
    ticket creation) and its successor with the AI follow-up negotiation.

    Conventions of the embedding.
    - A JavaScript string is a [string]: a sequence of code units, one
      [ascii] per unit, read as the Latin-1 range U+0000..U+00FF of UTF-16.
      [trim] and [toLowerCase] below are the ECMAScript functions on that
      range, which both of them map into itself.
    - A JSON number is an integer [Z], printed in decimal. This is the
      number of the script for the safe integers, below 2^53 in magnitude,
      which [JSON.parse] reads exactly and [String] prints in full; a
      statement that fixes the text of a number is made for these.
    - The two module-level variables [userId] and [confirmed] are the two
      fields of the record [session].
    - [fetch], [prompt], [alert], the console and the DOM are the
      environment: what the script does to it is recorded, in order, in a
      trace of [event]s; what it answers is given by two oracles.
    - The elements that the script looks up by id exist in the document,
      and a call runs to its end before the next one starts. *)

From Stdlib Require Import ZArith Ascii String List Bool Lia.
From stdpp Require Import base option list strings gmap fin_maps.

Open Scope Z_scope.

(** ** Strings *)

Module JsString.

(** White space and line terminators of ECMAScript in U+0000..U+00FF:
    TAB, LF, VT, FF, CR, SP and NBSP. *)
Definition is_white_space (c : ascii) : bool :=
  let n := N_of_ascii c in
  ((9 <=? n) && (n <=? 13) || (n =? 32) || (n =? 160))%N.

Fixpoint trimStart (s : string) : string :=
  match s with
  | EmptyString => EmptyString
  | String c s' => if is_white_space c then trimStart s' else s
  end.

Fixpoint trimEnd (s : string) : string :=
  match s with
  | EmptyString => EmptyString
  | String c s' =>
      match trimEnd s' with
      | EmptyString => if is_white_space c then EmptyString else String c EmptyString
      | t => String c t
      end
  end.

(** [String.prototype.trim] *)
Definition trim (s : string) : string := trimEnd (trimStart s).

(** Lower case of one code unit: A..Z, and the Latin-1 capitals
    U+00C0..U+00DE without the multiplication sign U+00D7. *)
Definition lower_unit (c : ascii) : ascii :=
  let n := N_of_ascii c in
  if ((65 <=? n) && (n <=? 90)
      || (192 <=? n) && (n <=? 222) && negb (n =? 215))%N
  then ascii_of_N (n + 32) else c.

(** [String.prototype.toLowerCase] *)
Fixpoint toLowerCase (s : string) : string :=
  match s with
  | EmptyString => EmptyString
  | String c s' => String (lower_unit c) (toLowerCase s')
  end.

(** The class [\d] of a regular expression without the [u] flag. *)
Definition is_digit (c : ascii) : bool :=
  let n := N_of_ascii c in ((48 <=? n) && (n <=? 57))%N.

Definition digit_value (c : ascii) : Z := Z.of_N (N_of_ascii c) - 48.

(** [Number(ds)] on a string of decimal digits. *)
Definition Number_of_digits (ds : string) : Z :=
  fold_left (fun acc c => 10 * acc + digit_value c) (list_ascii_of_string ds) 0.

Fixpoint all_digits (s : string) : bool :=
  match s with
  | EmptyString => true
  | String c s' => is_digit c && all_digits s'
  end.

(** Decimal numeral of a natural number, most significant digit first. *)
Definition digit_char (n : N) : ascii := ascii_of_N (48 + n).

Fixpoint decimal_fuel (fuel : nat) (n : N) (acc : string) : string :=
  match fuel with
  | O => acc
  | S fuel' =>
      let acc' := String (digit_char (n mod 10)) acc in
      if (n <? 10)%N then acc' else decimal_fuel fuel' (n / 10) acc'
  end.

Definition decimal (n : N) : string :=
  decimal_fuel (S (N.to_nat (N.log2 n))) n EmptyString.

(** [String(n)] for an integer [n]. *)
Definition string_of_Z (n : Z) : string :=
  match n with
  | Z0 => "0"
  | Zpos p => decimal (Npos p)
  | Zneg p => "-" +:+ decimal (Npos p)
  end.

(** [xs.join(sep)] on strings. *)
Fixpoint join (sep : string) (xs : list string) : string :=
  match xs with
  | [] => EmptyString
  | [x] => x
  | x :: xs' => x +:+ sep +:+ join sep xs'
  end.

End JsString.

Import JsString.

(** ** The identity parser *)

(** The literal part of a pattern anchored at the start: what follows the
    prefix [p] in [s], if [s] starts with it. *)
Fixpoint strip_prefix (p s : string) : option string :=
  match p, s with
  | EmptyString, _ => Some s
  | String a p', String b s' => if Ascii.eqb a b then strip_prefix p' s' else None
  | String _ _, EmptyString => None
  end.

(** The regular expression [/^user(\d{1,2})$/] applied to [s]: the result is
    the first capture group, or [None] when there is no match. *)
Definition match_user_re (s : string) : option string :=
  match strip_prefix "user" s with
  | Some rest =>
      match rest with
      | String d1 EmptyString =>
          if is_digit d1 then Some rest else None
      | String d1 (String d2 EmptyString) =>
          if is_digit d1 && is_digit d2 then Some rest else None
      | _ => None
      end
  | None => None
  end.

(** [parseUserId(username)]; [None] is the source's [null]. *)
Definition parseUserId (username : string) : option Z :=
  match match_user_re (toLowerCase (trim username)) with
  | None => None
  | Some m1 =>
      let id := Number_of_digits m1 in
      if (id <? 1) || (id >? 99) then None else Some id
  end.

(** The accepted language in the words of the specification: the text
    [user] followed by one or two decimal digits, with the value the digits
    denote. *)
Inductive user_numeral : string -> Z -> Prop :=
  | user_numeral_1 d1 :
      is_digit d1 = true ->
      user_numeral ("user" +:+ String d1 EmptyString) (digit_value d1)
  | user_numeral_2 d1 d2 :
      is_digit d1 = true -> is_digit d2 = true ->
      user_numeral ("user" +:+ String d1 (String d2 EmptyString))
                   (10 * digit_value d1 + digit_value d2).

Definition accepted_username (s : string) (n : Z) : Prop :=
  user_numeral (toLowerCase (trim s)) n /\ 1 <= n <= 99.

(** ** JSON payloads and the JavaScript operations applied to them *)

#[local] Set Warnings "-register-all".

Inductive json : Type :=
  | JNull
  | JBool (b : bool)
  | JNum (n : Z)
  | JStr (s : string)
  | JArr (xs : list json)
  | JObj (fields : list (string * json)).

(** A JavaScript value read out of a payload: [None] is [undefined]. *)
Definition value : Type := option json.

(** What can be thrown: an [Error] the script builds itself, the rejection
    of a promise ([fetch], [res.json()]), or a [TypeError] of the engine
    (whose text is the engine's; the text below stands for it). *)
Inductive exn : Type :=
  | Error (message : string)
  | Rejection (message : string)
  | TypeError (message : string).

Definition message (e : exn) : string :=
  match e with
  | Error m | Rejection m | TypeError m => m
  end.

Inductive result (A : Type) : Type :=
  | Ok (a : A)
  | Raise (e : exn).
Arguments Ok {A} a.
Arguments Raise {A} e.

Module Js.

Definition LF : string := String "010"%char EmptyString.

(** [ToBoolean] *)
Definition truthy (v : value) : bool :=
  match v with
  | None | Some JNull => false
  | Some (JBool b) => b
  | Some (JNum n) => negb (n =? 0)
  | Some (JStr s) => negb (String.eqb s "")
  | Some (JArr _) | Some (JObj _) => true
  end.

(** Own property [k] of an object built by [JSON.parse]: of two members
    with the same name the later one wins. *)
Fixpoint field (k : string) (fs : list (string * json)) : value :=
  match fs with
  | [] => None
  | (k', v) :: fs' =>
      match field k fs' with
      | Some w => Some w
      | None => if String.eqb k k' then Some v else None
      end
  end.

(** [v.k], for the property names the script reads: none of them but
    [length] is inherited from a prototype. *)
Definition get (v : value) (k : string) : result value :=
  match v with
  | None => Raise (TypeError "Cannot read properties of undefined")
  | Some JNull => Raise (TypeError "Cannot read properties of null")
  | Some (JObj fs) => Ok (field k fs)
  | Some (JArr xs) =>
      Ok (if String.eqb k "length" then Some (JNum (Z.of_nat (length xs))) else None)
  | Some (JStr s) =>
      Ok (if String.eqb k "length" then Some (JNum (Z.of_nat (String.length s))) else None)
  | Some _ => Ok None
  end.

(** [v === s] for a string [s]. *)
Definition strict_eq_string (v : value) (s : string) : bool :=
  match v with
  | Some (JStr t) => String.eqb t s
  | _ => false
  end.

Definition isArray (v : value) : bool :=
  match v with
  | Some (JArr _) => true
  | _ => false
  end.

Fixpoint sequence {A : Type} (xs : list (result A)) : result (list A) :=
  match xs with
  | [] => Ok []
  | Ok a :: xs' =>
      match sequence xs' with
      | Ok l => Ok (a :: l)
      | Raise e => Raise e
      end
  | Raise e :: _ => Raise e
  end.

(** [ToString] of a payload. An array prints its elements separated by
    commas, [null] elements as the empty string. An object prints as
    [[object Object]], unless it has a member named [toString]: that
    member is not callable, [valueOf] returns no primitive, and the
    conversion throws. *)
Fixpoint to_string (j : json) : result string :=
  match j with
  | JNull => Ok "null"
  | JBool true => Ok "true"
  | JBool false => Ok "false"
  | JNum n => Ok (string_of_Z n)
  | JStr s => Ok s
  | JArr xs =>
      match sequence (map (fun x => match x with
                                    | JNull => Ok EmptyString
                                    | _ => to_string x
                                    end) xs) with
      | Ok l => Ok (join "," l)
      | Raise e => Raise e
      end
  | JObj fs =>
      match field "toString" fs with
      | Some _ => Raise (TypeError "Cannot convert object to primitive value")
      | None => Ok "[object Object]"
      end
  end.

(** [Array.prototype.join] applied to [v]. *)
Definition array_join (v : value) (sep : string) : result string :=
  match v with
  | Some (JArr xs) =>
      match sequence (map (fun x => match x with
                                    | JNull => Ok EmptyString
                                    | _ => to_string x
                                    end) xs) with
      | Ok l => Ok (join sep l)
      | Raise e => Raise e
      end
  | None => Raise (TypeError "Cannot read properties of undefined")
  | Some JNull => Raise (TypeError "Cannot read properties of null")
  | Some _ => Raise (TypeError "join is not a function")
  end.

(** [ToString] of a value: a substitution [${v}] of a template literal,
    the message of [new Error(v)], a property key. *)
Definition template (v : value) : result string :=
  match v with
  | None => Ok "undefined"
  | Some j => to_string j
  end.

(** The message argument of [prompt], an optional [DOMString] with the
    default [""]: [undefined] selects the default. *)
Definition dom_string (v : value) : result string :=
  match v with
  | None => Ok EmptyString
  | Some j => to_string j
  end.

(** The values a [for ... of] loop visits. *)
Definition iterate (v : value) : result (list json) :=
  match v with
  | Some (JArr xs) => Ok xs
  | Some (JStr s) =>
      Ok (map (fun c => JStr (String c EmptyString)) (list_ascii_of_string s))
  | _ => Raise (TypeError "is not iterable")
  end.

(** [x || ""] for the result [x] of [prompt]; [None] is [null]. *)
Definition or_empty (x : option string) : string :=
  match x with
  | Some s => s
  | None => EmptyString
  end.

(** [o[k] = v] on an object literal holding strings. Assigning a string
    to [__proto__] runs the inherited setter, which ignores it. *)
Definition assign (k v : string) (o : gmap string string) : gmap string string :=
  if String.eqb k "__proto__" then o else <[k := v]> o.

(** [!x] for a variable holding a number or [null]. *)
Definition truthy_id (x : option Z) : bool :=
  match x with
  | Some n => negb (n =? 0)
  | None => false
  end.

End Js.

Import Js.

(** ** The environment of the script *)

(** The module-level variables of the script. *)
Record session : Type := Session { userId : option Z; confirmed : bool }.

(** [let userId = null; let confirmed = false;] *)
Definition initial : session := {| userId := None; confirmed := false |}.

(** The object handed to [JSON.stringify] for a request body. The draft
    request of [frontend/app.js] has no [table] member; a table number that
    is [NaN] is written as [null]. *)
Inductive body : Type :=
  | DraftBody (user_id : option Z) (table : option json)
  | TicketBody (user_id : option Z) (title description : string)
  | FinalizeBody (user_id : option Z) (answers : gmap string string).

(** What the script does to its environment. *)
Inductive event : Type :=
  | Fetch (url : string) (b : body)
  | Prompt (text : string)
  | Alert (text : string)
  | ConsoleError (e : exn)
  | ConsoleLog (label : string) (args : list value)
  | StatusText (text : string)
  | StatusColor (color : string)
  | SubmitDisabled (disabled : bool).

(** A response: its [ok] flag, and what [res.json()] settles to, the parsed
    payload or the text of the rejection. *)
Record response : Type := Response { ok : bool; payload : string + json }.

(** What [fetch] settles to. *)
Inductive fetch_outcome : Type :=
  | NetworkFailure (reason : string)
  | Responds (r : response).

(** The outside world of one run: the answer to the [n]-th request, and the
    user's answer to the [n]-th prompt ([None] when the prompt is
    cancelled). *)
Record environment : Type := Environment {
  server : nat -> string -> body -> fetch_outcome;
  user : nat -> string -> option string
}.

Record world : Type := World { vars : session; trace : list event }.

Definition is_fetch (e : event) : bool :=
  match e with Fetch _ _ => true | _ => false end.

Definition is_prompt (e : event) : bool :=
  match e with Prompt _ => true | _ => false end.

Definition fetches (tr : list event) : list event := List.filter is_fetch tr.
Definition prompts (tr : list event) : list event := List.filter is_prompt tr.

(** ** Completions and the monad of a function body *)

Inductive completion (A : Type) : Type :=
  | Normal (a : A)
  | Return
  | Throw (e : exn).
Arguments Normal {A} a.
Arguments Return {A}.
Arguments Throw {A} e.

Definition M (A : Type) : Type := world -> completion A * world.

Definition ret {A : Type} (a : A) : M A := fun w => (Normal a, w).

Definition bind {A B : Type} (m : M A) (k : A -> M B) : M B :=
  fun w =>
    match m w with
    | (Normal a, w') => k a w'
    | (Return, w') => (Return, w')
    | (Throw e, w') => (Throw e, w')
    end.

Notation "'let*' x ':=' m 'in' k" := (bind m (fun x => k))
  (at level 10, x name, m at level 100, k at level 200).
Notation "m ';;' k" := (bind m (fun _ => k))
  (at level 100, k at level 200, right associativity).

(** [return;] *)
Definition return_ {A : Type} : M A := fun w => (Return, w).

(** [throw e] *)
Definition throw {A : Type} (e : exn) : M A := fun w => (Throw e, w).

Definition lift {A : Type} (r : result A) : M A :=
  match r with
  | Ok a => ret a
  | Raise e => throw e
  end.

Definition emit (e : event) : M unit :=
  fun w => (Normal tt, {| vars := vars w; trace := trace w ++ [e] |}).

Definition read {A : Type} (f : session -> A) : M A :=
  fun w => (Normal (f (vars w)), w).

Definition write (f : session -> session) : M unit :=
  fun w => (Normal tt, {| vars := f (vars w); trace := trace w |}).

Definition set_userId (x : option Z) (s : session) : session :=
  {| userId := x; confirmed := confirmed s |}.

Definition set_confirmed (b : bool) (s : session) : session :=
  {| userId := userId s; confirmed := b |}.

(** [try { body } catch (err) { handler }] *)
Definition try_catch (body : M unit) (handler : exn -> M unit) : M unit :=
  fun w =>
    match body w with
    | (Throw e, w') => handler e w'
    | r => r
    end.

(** A call of a function with the given body, started with an empty trace:
    the variables it leaves, and what it did. *)
Definition call (body : M unit) (s : session) : world :=
  snd (body {| vars := s; trace := [] |}).

Section Browser.

Variable env : environment.

(** [await fetch(url, {method: "POST", ..., body: JSON.stringify(b)})] *)
Definition fetch (url : string) (b : body) : M response :=
  fun w =>
    let n := length (fetches (trace w)) in
    let w' := {| vars := vars w; trace := trace w ++ [Fetch url b] |} in
    match server env n url b with
    | NetworkFailure reason => (Throw (Rejection reason), w')
    | Responds r => (Normal r, w')
    end.

(** [await res.json()] *)
Definition res_json (res : response) : M json :=
  match payload res with
  | inl reason => throw (Rejection reason)
  | inr j => ret j
  end.

(** [prompt(text)] *)
Definition prompt (text : string) : M (option string) :=
  fun w =>
    let n := length (prompts (trace w)) in
    (Normal (user env n text),
     {| vars := vars w; trace := trace w ++ [Prompt text] |}).

(** [if (!res.ok) throw new Error(data.error || fallback);] *)
Definition check_ok (res : response) (data : json) (fallback : string) : M unit :=
  if negb (ok res) then
    let* err := lift (get (Some data) "error") in
    if truthy err then
      let* msg := lift (template err) in throw (Error msg)
    else throw (Error fallback)
  else ret tt.

End Browser.

(** ** Texts of the user interface *)

Module Text.

Definition o_slash : string := String "248"%char EmptyString.
Definition a_ring : string := String "229"%char EmptyString.

Definition api : string := "http://127.0.0.1:5000".
Definition draft_start : string := api +:+ "/api/draft/start".
Definition ai_followups : string := api +:+ "/api/ai/followups".
Definition ai_finalize : string := api +:+ "/api/ai/finalize".
Definition tickets : string := api +:+ "/api/tickets".

Definition placeholder : string := "-- Velg --".
Definition invalid_username : string :=
  "Ugyldig brukernavn. Bruk format: user1 - user99".
Definition confirm_first : string := "Bekreft bruker f" +:+ o_slash +:+ "rst.".
Definition choose_inquiry : string := "Velg hva henvendelsen gjelder.".
Definition write_description : string := "Skriv en kort beskrivelse.".
Definition reconfirm : string :=
  "Bekreft bruker for " +:+ a_ring +:+ " starte ny timer.".
Definition went_wrong : string := "Noe gikk galt: ".
Definition timer_failed : string := "Kunne ikke starte timer: ".

End Text.

(** ** The script with the follow-up negotiation *)

Module AppFollowups.
Section Script.

Variable env : environment.

(** [confirmUser()], reading [username] from the input field and
    [tableChoice] from the table selector: the [try] block on the parsed
    id, the [catch] clause, and the function. *)
Definition confirmUser_try (id : option Z) (tableChoice : json) : M unit :=
      (let* res := fetch env Text.draft_start (DraftBody id (Some tableChoice)) in
       let* data := res_json res in
       check_ok res data "Failed to start draft";;
       write (set_userId id);;
       write (set_confirmed true);;
       let* uid := read userId in
       emit (StatusText ("Bekreftet: user"
                         +:+ match uid with Some n => string_of_Z n | None => "null" end
                         +:+ ". Timer startet."));;
       emit (StatusColor "green");;
       emit (SubmitDisabled false);;
       emit (ConsoleLog "Draft started for user_id:"
                        [match uid with Some n => Some (JNum n) | None => Some JNull end;
                         Some data])).

Definition confirmUser_catch (err : exn) : M unit :=
  emit (ConsoleError err);;
  emit (StatusText (Text.timer_failed +:+ message err));;
  emit (StatusColor "red").

Definition confirmUser_body (username : string) (tableChoice : json) : M unit :=
  let id := parseUserId username in
  if negb (truthy_id id) then
    emit (StatusText Text.invalid_username);;
    emit (StatusColor "red");;
    return_
  else
    try_catch (confirmUser_try id tableChoice) confirmUser_catch.

Definition confirmUser (username : string) (tableChoice : json) (s : session) : world :=
  call (confirmUser_body username tableChoice) s.

(** The condition
    [q.type === "multiple_choice" && Array.isArray(q.choices) && q.choices.length]. *)
Definition shows_choices (q : json) : M bool :=
  let* ty := lift (get (Some q) "type") in
  if strict_eq_string ty "multiple_choice" then
    let* choices := lift (get (Some q) "choices") in
    if isArray choices then
      let* len := lift (get choices "length") in
      ret (truthy len)
    else ret false
  else ret false.

(** The prompt of one question: the two branches of the loop body, and
    [|| ""] applied to what the user gives. *)
Definition ask (q : json) : M string :=
  let* c := shows_choices q in
  if c then
    let* question := lift (get (Some q) "question") in
    let* text := lift (template question) in
    let* choices := lift (get (Some q) "choices") in
    let* listed := lift (array_join choices (LF +:+ "- ")) in
    let* given := prompt env (text +:+ LF +:+ "Valg:" +:+ LF +:+ "- " +:+ listed) in
    ret (or_empty given)
  else
    let* question := lift (get (Some q) "question") in
    let* text := lift (dom_string question) in
    let* given := prompt env text in
    ret (or_empty given).

(** [for (const q of questions) { ...; answers[q.id] = answer.trim(); }] *)
Fixpoint collect (qs : list json) (answers : gmap string string)
  : M (gmap string string) :=
  match qs with
  | [] => ret answers
  | q :: rest =>
      let* answer := ask q in
      let* id := lift (get (Some q) "id") in
      let* key := lift (template id) in
      collect rest (assign key (trim answer) answers)
  end.

(** [submitForm()], reading [inquiry] and [Description] from the form:
    the [try] block, the [catch] clause, and the function. *)
Definition submitForm_try (inquiry Description : string) : M unit :=
    (let* c := read confirmed in
     let* u := read userId in
     if negb c || negb (truthy_id u) then
       emit (Alert Text.confirm_first);; return_
     else
     let desc := trim Description in
     if String.eqb inquiry "" || String.eqb inquiry Text.placeholder then
       emit (Alert Text.choose_inquiry);; return_
     else
     if String.eqb desc "" then
       emit (Alert Text.write_description);; return_
     else
     let title := inquiry in
     let description := "Kategori: " +:+ inquiry +:+ LF +:+ LF +:+ desc in
     let* u := read userId in
     let* followRes := fetch env Text.ai_followups (TicketBody u title description) in
     let* followData := res_json followRes in
     check_ok followRes followData "Failed followups";;
     let* needs := lift (get (Some followData) "needs_followup") in
     (if negb (truthy needs) then
        let* u := read userId in
        let* res := fetch env Text.tickets (TicketBody u title description) in
        let* data := res_json res in
        check_ok res data "Failed to submit ticket";;
        let* ms := lift (get (Some data) "time_to_submit_ms") in
        let* ms := lift (template ms) in
        emit (Alert ("Ticket sendt!" +:+ LF +:+ "Tid brukt: " +:+ ms +:+ " s"))
      else
        let* questions := lift (get (Some followData) "questions") in
        let* qs := lift (iterate questions) in
        let* answers := collect qs ∅ in
        let* u := read userId in
        let* finRes := fetch env Text.ai_finalize (FinalizeBody u answers) in
        let* finData := res_json finRes in
        check_ok finRes finData "Failed finalize";;
        let* ms := lift (get (Some finData) "time_to_submit_ms") in
        let* ms := lift (template ms) in
        let* table := lift (get (Some finData) "log_table") in
        let* table := lift (template table) in
        emit (Alert ("Ticket sendt (AI forbedret)!" +:+ LF +:+ "Tid brukt: " +:+ ms
                     +:+ " s" +:+ LF +:+ "Data sendt til Tabell: " +:+ table));;
        let* final := lift (get (Some finData) "final") in
        emit (ConsoleLog "AI final:" [final]));;
     write (set_confirmed false);;
     write (set_userId None);;
     emit (SubmitDisabled true);;
     emit (StatusText Text.reconfirm)).

Definition submitForm_catch (err : exn) : M unit :=
  emit (ConsoleError err);;
  emit (Alert (Text.went_wrong +:+ message err)).

Definition submitForm_body (inquiry Description : string) : M unit :=
  try_catch (submitForm_try inquiry Description) submitForm_catch.

Definition submitForm (inquiry Description : string) (s : session) : world :=
  call (submitForm_body inquiry Description) s.

End Script.
End AppFollowups.

(** ** The script of frontend/app.js *)

Module AppJs.
Section Script.

Variable env : environment.

(** [confirmUser()], reading [username] from the input field: the [try]
    block on the parsed id, the [catch] clause, and the function. *)
Definition confirmUser_try (id : option Z) : M unit :=
      (let* res := fetch env Text.draft_start (DraftBody id None) in
       let* data := res_json res in
       check_ok res data "Failed to start draft";;
       write (set_userId id);;
       write (set_confirmed true);;
       let* uid := read userId in
       emit (StatusText ("Bekreftet: user"
                         +:+ match uid with Some n => string_of_Z n | None => "null" end
                         +:+ ". Timer startet."));;
       emit (StatusColor "green");;
       emit (SubmitDisabled false);;
       emit (ConsoleLog "Draft started for user_id:"
                        [match uid with Some n => Some (JNum n) | None => Some JNull end;
                         Some data])).

Definition confirmUser_catch (err : exn) : M unit :=
  emit (ConsoleError err);;
  emit (StatusText (Text.timer_failed +:+ message err));;
  emit (StatusColor "red").

Definition confirmUser_body (username : string) : M unit :=
  let id := parseUserId username in
  if negb (truthy_id id) then
    emit (StatusText Text.invalid_username);;
    emit (StatusColor "red");;
    return_
  else
    try_catch (confirmUser_try id) confirmUser_catch.

Definition confirmUser (username : string) (s : session) : world :=
  call (confirmUser_body username) s.

(** [submitForm()], reading [inquiry] and [Description] from the form:
    the [try] block, the [catch] clause, and the function. *)
Definition submitForm_try (inquiry Description : string) : M unit :=
    (let* c := read confirmed in
     let* u := read userId in
     if negb c || negb (truthy_id u) then
       emit (Alert Text.confirm_first);; return_
     else
     let desc := trim Description in
     if String.eqb inquiry "" || String.eqb inquiry Text.placeholder then
       emit (Alert Text.choose_inquiry);; return_
     else
     if String.eqb desc "" then
       emit (Alert Text.write_description);; return_
     else
     let title := inquiry in
     let description := "Kategori: " +:+ inquiry +:+ LF +:+ LF +:+ desc in
     let* u := read userId in
     let* res := fetch env Text.tickets (TicketBody u title description) in
     let* data := res_json res in
     check_ok res data "Failed to submit ticket";;
     let* ms := lift (get (Some data) "time_to_submit_ms") in
     let* ms := lift (template ms) in
     emit (Alert ("Ticket sendt!" +:+ LF +:+ "Tid brukt: " +:+ ms +:+ " ms"));;
     write (set_confirmed false);;
     write (set_userId None);;
     emit (SubmitDisabled true);;
     emit (StatusText Text.reconfirm)).

Definition submitForm_catch (err : exn) : M unit :=
  emit (ConsoleError err);;
  emit (Alert (Text.went_wrong +:+ message err)).

Definition submitForm_body (inquiry Description : string) : M unit :=
  try_catch (submitForm_try inquiry Description) submitForm_catch.

Definition submitForm (inquiry Description : string) (s : session) : world :=
  call (submitForm_body inquiry Description) s.

End Script.
End AppJs.

(** ** The two versions side by side *)

Inductive version : Type :=
  | app_js          (* frontend/app.js *)
  | app_followups.  (* its successor with the follow-up negotiation *)

Definition draft_body (v : version) (id : option Z) (tableChoice : json) : body :=
  match v with
  | app_js => DraftBody id None
  | app_followups => DraftBody id (Some tableChoice)
  end.

Definition confirmUser_try (v : version) (env : environment)
    (id : option Z) (tableChoice : json) : M unit :=
  match v with
  | app_js => AppJs.confirmUser_try env id
  | app_followups => AppFollowups.confirmUser_try env id tableChoice
  end.

Definition confirmUser (v : version) (env : environment)
    (username : string) (tableChoice : json) (s : session) : world :=
  match v with
  | app_js => AppJs.confirmUser env username s
  | app_followups => AppFollowups.confirmUser env username tableChoice s
  end.

Definition submitForm_try (v : version) (env : environment)
    (inquiry Description : string) : M unit :=
  match v with
  | app_js => AppJs.submitForm_try env inquiry Description
  | app_followups => AppFollowups.submitForm_try env inquiry Description
  end.

Definition submitForm (v : version) (env : environment)
    (inquiry Description : string) (s : session) : world :=
  match v with
  | app_js => AppJs.submitForm env inquiry Description s
  | app_followups => AppFollowups.submitForm env inquiry Description s
  end.

(** The first endpoint that [submitForm] addresses. *)
Definition first_endpoint (v : version) : string :=
  match v with
  | app_js => Text.tickets
  | app_followups => Text.ai_followups
  end.

(** ** Vocabulary of the properties *)

(** The world in which a call starts. *)
Definition start (s : session) : world := {| vars := s; trace := [] |}.

Definition url_of (e : event) : option string :=
  match e with
  | Fetch url _ => Some url
  | _ => None
  end.

(** The endpoints requested in a trace, in order. *)
Definition urls (tr : list event) : list string := omap url_of tr.

(** The description that a submission carries, in the words of the
    specification. *)
Definition composed (inquiry Description : string) : string :=
  "Kategori: " +:+ inquiry +:+ LF +:+ LF +:+ trim Description.

(** The form passes the validation of [submitForm]. *)
Definition valid_form (inquiry Description : string) : Prop :=
  inquiry <> "" /\ inquiry <> Text.placeholder /\ trim Description <> "".

(** The session passes the guard of [submitForm]. *)
Definition ready (s : session) : Prop :=
  confirmed s = true /\ truthy_id (userId s) = true.

(** The session or the form fails a check of [submitForm]. *)
Definition rejected (s : session) (inquiry Description : string) : Prop :=
  confirmed s = false \/ truthy_id (userId s) = false
  \/ inquiry = "" \/ inquiry = Text.placeholder \/ trim Description = "".

(** What the [catch] clause of [submitForm] reports. *)
Definition report (e : exn) : list event :=
  [ConsoleError e; Alert (Text.went_wrong +:+ message e)].

(** The [try] block of [submitForm] runs to its end: the ticket was
    created, directly or by finalization. *)
Definition submitted (v : version) (env : environment)
    (inquiry Description : string) (s : session) : Prop :=
  fst (submitForm_try v env inquiry Description (start s)) = Normal tt.

(** A step of [submitForm] raises the exception [e]. *)
Definition submit_raises (v : version) (env : environment)
    (inquiry Description : string) (s : session) (e : exn) : Prop :=
  fst (submitForm_try v env inquiry Description (start s)) = Throw e.

(** The draft-start request fails: the network fails, the response is not
    [ok], or its body is no JSON. *)
Definition draft_fails (o : fetch_outcome) : Prop :=
  match o with
  | NetworkFailure _ => True
  | Responds r => ok r = false \/ exists reason, payload r = inl reason
  end.

(** The invariant of the session: confirmed exactly when a user id in
    [1,99] is held. *)
Definition consistent (s : session) : Prop :=
  confirmed s = true <-> exists n, userId s = Some n /\ 1 <= n <= 99.

(** The sessions that runs of the two functions lead to. *)
Inductive reachable (v : version) : session -> Prop :=
  | reach_initial : reachable v initial
  | reach_confirm env username tableChoice s :
      reachable v s ->
      reachable v (vars (confirmUser v env username tableChoice s))
  | reach_submit env inquiry Description s :
      reachable v s ->
      reachable v (vars (submitForm v env inquiry Description s)).

(** The runs of the [try] block of [submitForm] (follow-up version) from a
    confirmed session with a valid form, by the point the block is left
    at. *)
Inductive followups_run (s : session) (b : body) : completion unit * world -> Prop :=
  | run_followups_failed e :
      followups_run s b
        (Throw e, {| vars := s; trace := [Fetch Text.ai_followups b] |})
  | run_ticket_failed e :
      followups_run s b
        (Throw e, {| vars := s;
                     trace := [Fetch Text.ai_followups b; Fetch Text.tickets b] |})
  | run_ticket_sent msg :
      followups_run s b
        (Normal tt, {| vars := initial;
                       trace := [Fetch Text.ai_followups b; Fetch Text.tickets b;
                                 Alert msg; SubmitDisabled true;
                                 StatusText Text.reconfirm] |})
  | run_questions_failed e texts :
      followups_run s b
        (Throw e, {| vars := s;
                     trace := Fetch Text.ai_followups b :: map Prompt texts |})
  | run_finalize_failed e texts answers :
      followups_run s b
        (Throw e, {| vars := s;
                     trace := Fetch Text.ai_followups b :: map Prompt texts
                              ++ [Fetch Text.ai_finalize (FinalizeBody (userId s) answers)] |})
  | run_finalized texts answers msg final :
      followups_run s b
        (Normal tt, {| vars := initial;
                       trace := Fetch Text.ai_followups b :: map Prompt texts
                                ++ [Fetch Text.ai_finalize (FinalizeBody (userId s) answers);
                                    Alert msg; ConsoleLog "AI final:" [final];
                                    SubmitDisabled true; StatusText Text.reconfirm] |}).

(** The same for [frontend/app.js]. *)
Inductive direct_run (s : session) (b : body) : completion unit * world -> Prop :=
  | run_direct_failed e :
      direct_run s b (Throw e, {| vars := s; trace := [Fetch Text.tickets b] |})
  | run_direct_sent msg :
      direct_run s b
        (Normal tt, {| vars := initial;
                       trace := [Fetch Text.tickets b; Alert msg; SubmitDisabled true;
                                 StatusText Text.reconfirm] |}).

(** ** Well-formed follow-up questions *)

(** A follow-up question as the data model has it. *)
Inductive question_type : Type := multiple_choice | free_text.

Inductive question_id : Type :=
  | IdStr (s : string)
  | IdNum (n : Z).

Record question : Type := Question {
  q_id : question_id;
  q_question : string;
  q_type : question_type;
  q_choices : option (list string)
}.

Definition type_name (t : question_type) : string :=
  match t with
  | multiple_choice => "multiple_choice"
  | free_text => "free_text"
  end.

Definition id_json (i : question_id) : json :=
  match i with
  | IdStr s => JStr s
  | IdNum n => JNum n
  end.

(** The payload of a question. *)
Definition encode (q : question) : json :=
  match q_choices q with
  | Some cs =>
      JObj [("id", id_json (q_id q)); ("question", JStr (q_question q));
            ("type", JStr (type_name (q_type q))); ("choices", JArr (map JStr cs))]
  | None =>
      JObj [("id", id_json (q_id q)); ("question", JStr (q_question q));
            ("type", JStr (type_name (q_type q)))]
  end.

(** The key under which the answer to a question is filed. *)
Definition key (q : question) : string :=
  match q_id q with
  | IdStr s => s
  | IdNum n => string_of_Z n
  end.

(** What the specification has the prompt of a question show: the question
    text, followed for a multiple-choice question with choices by the list
    of the choices. *)
Definition prompt_text (q : question) : string :=
  match q_type q, q_choices q with
  | multiple_choice, Some (c :: cs) =>
      q_question q +:+ LF +:+ "Valg:" +:+ LF +:+ "- " +:+ join (LF +:+ "- ") (c :: cs)
  | _, _ => q_question q
  end.

(** The answer filed for the [i]-th question: what the user gives at the
    [i]-th prompt, the empty string when the prompt is cancelled, trimmed. *)
Definition filed_answer (env : environment) (i : nat) (q : question) : string :=
  trim (or_empty (user env i (prompt_text q))).

(** The answers filed when the questions [qs] are asked from prompt number
    [n] on. *)
Fixpoint file_answers (env : environment) (n : nat) (qs : list question)
    (answers : gmap string string) : gmap string string :=
  match qs with
  | [] => answers
  | q :: rest =>
      file_answers env (S n) rest (assign (key q) (filed_answer env n q) answers)
  end.

(** ** Sample environments *)

Module Sample.

Definition accepted (j : json) : fetch_outcome :=
  Responds {| ok := true; payload := inr j |}.

Definition refused (j : json) : fetch_outcome :=
  Responds {| ok := false; payload := inr j |}.

(** No network. *)
Definition offline : environment :=
  {| server := fun _ _ _ => NetworkFailure "Failed to fetch";
     user := fun _ _ => None |}.

(** A backend that accepts every request and asks no follow-up. *)
Definition plain : environment :=
  {| server := fun n _ _ =>
       match n with
       | O => accepted (JObj [("needs_followup", JBool false);
                              ("time_to_submit_ms", JNum 12)])
       | _ => accepted (JObj [("time_to_submit_ms", JNum 12)])
       end;
     user := fun _ _ => None |}.

Definition which : question :=
  {| q_id := IdStr "q1"; q_question := "Which invoice?";
     q_type := free_text; q_choices := None |}.

Definition how : question :=
  {| q_id := IdStr "q2"; q_question := "How urgent?";
     q_type := multiple_choice; q_choices := Some ["low"; "high"] |}.

(** The same, with the id of [which]. *)
Definition how_again : question :=
  {| q_id := IdStr "q1"; q_question := "How urgent?";
     q_type := multiple_choice; q_choices := Some ["low"; "high"] |}.

(** A backend that asks the questions [qs], and a user who answers the
    first prompt and cancels the others. *)
Definition asking (qs : list question) : environment :=
  {| server := fun n _ _ =>
       match n with
       | O => accepted (JObj [("needs_followup", JBool true);
                              ("questions", JArr (map encode qs))])
       | _ => accepted (JObj [("time_to_submit_ms", JNum 12);
                              ("log_table", JNum 3); ("final", JNull)])
       end;
     user := fun n _ => match n with O => Some " 4711 " | _ => None end |}.

Definition user7 : session := {| userId := Some 7; confirmed := true |}.
Definition user5 : session := {| userId := Some 5; confirmed := true |}.

End Sample.

(** ** Vocabulary of the further properties *)

Definition is_alert (e : event) : bool :=
  match e with Alert _ => true | _ => false end.

Definition is_status_text (e : event) : bool :=
  match e with StatusText _ => true | _ => false end.

Definition alerts (tr : list event) : list event := List.filter is_alert tr.
Definition status_texts (tr : list event) : list event :=
  List.filter is_status_text tr.

(** The [user_id] member of a request body. *)
Definition body_user_id (b : body) : option Z :=
  match b with
  | DraftBody u _ | TicketBody u _ _ | FinalizeBody u _ => u
  end.

(** A string of white space only. *)
Fixpoint blank (s : string) : bool :=
  match s with
  | EmptyString => true
  | String c s' => is_white_space c && blank s'
  end.

(** The message that [submitForm] falls back on when its first request is
    refused without an [error] member. *)
Definition first_fallback (v : version) : string :=
  match v with
  | app_js => "Failed to submit ticket"
  | app_followups => "Failed followups"
  end.

(** The [try] block of [submitForm] runs to its end, as a test. *)
Definition completes (v : version) (env : environment)
    (inquiry Description : string) (s : session) : bool :=
  match fst (submitForm_try v env inquiry Description (start s)) with
  | Normal _ => true
  | _ => false
  end.

(** A series of calls of [submitForm], each with its own environment and
    form, with no call of [confirmUser] between them: the number of calls
    whose [try] block runs to its end. *)
Fixpoint successes (v : version) (calls : list (environment * (string * string)))
    (s : session) : nat :=
  match calls with
  | [] => O
  | (env, (inquiry, Description)) :: rest =>
      ((if completes v env inquiry Description s then 1 else 0)
       + successes v rest (vars (submitForm v env inquiry Description s)))%nat
  end.

(** ** Further sample environments *)

Module Scenario.

(** A backend that refuses every request with the given payload. *)
Definition refusing (fs : list (string * json)) : environment :=
  {| server := fun _ _ _ => Sample.refused (JObj fs);
     user := fun _ _ => None |}.

(** A backend that accepts every request with the given payload. *)
Definition accepting (j : json) : environment :=
  {| server := fun _ _ _ => Sample.accepted j;
     user := fun _ _ => None |}.

(** A backend that asks for follow-up with the given [questions] member,
    and a user who answers every prompt. *)
Definition asking_raw (questions : json) : environment :=
  {| server := fun n _ _ =>
       match n with
       | O => Sample.accepted (JObj [("needs_followup", JBool true);
                                     ("questions", questions)])
       | _ => Sample.accepted (JObj [("time_to_submit_ms", JNum 12);
                                     ("log_table", JNum 3); ("final", JNull)])
       end;
     user := fun _ _ => Some "yes" |}.

(** A backend that asks for follow-up and names no questions. *)
Definition asking_nothing : environment :=
  {| server := fun _ _ _ => Sample.accepted (JObj [("needs_followup", JBool true)]);
     user := fun _ _ => None |}.

End Scenario.

(** ** Vocabulary of the response-based properties *)

(** The integers that a JavaScript number holds exactly. *)
Definition safe_integer (n : Z) : Prop := - 2 ^ 53 < n < 2 ^ 53.

(** The id of a question is a string or a safe integer. *)
Definition safe_id (q : question) : Prop :=
  match q_id q with
  | IdStr _ => True
  | IdNum n => safe_integer n
  end.

(** The payload [j] is an object that holds the question [q]: the members
    [id], [question] and [type] with the values of [q], and the member
    [choices] as a list of strings or not at all, in any order and among
    any other members. *)
Definition represents (j : json) (q : question) : Prop :=
  exists fs,
    j = JObj fs
    /\ field "id" fs = Some (id_json (q_id q))
    /\ field "question" fs = Some (JStr (q_question q))
    /\ field "type" fs = Some (JStr (type_name (q_type q)))
    /\ field "choices" fs = option_map (fun cs => JArr (map JStr cs)) (q_choices q).

(** The keys under which answers to the questions [qs] are filed: the
    string forms of their ids, without [__proto__]. *)
Definition filed_keys (qs : list question) : list string :=
  List.filter (fun k => negb (String.eqb k "__proto__")) (map key qs).

(** The backend accepts the submission: it answers every request of the
    run with an [ok] response whose body is an object, and the members the
    success notice shows can be printed. The three cases are the ticket
    request of [frontend/app.js], the determination without follow-up and
    the ticket request after it, and the determination with follow-up
    questions and the finalize request after them. *)
Inductive accepted (env : environment) (inquiry Description : string) (s : session)
  : version -> Prop :=
  | accepted_app_js r fs ms :
      server env 0 Text.tickets
             (TicketBody (userId s) inquiry (composed inquiry Description))
      = Responds r ->
      ok r = true -> payload r = inr (JObj fs) ->
      template (field "time_to_submit_ms" fs) = Ok ms ->
      accepted env inquiry Description s app_js
  | accepted_directly r0 fs0 r fs ms :
      server env 0 Text.ai_followups
             (TicketBody (userId s) inquiry (composed inquiry Description))
      = Responds r0 ->
      ok r0 = true -> payload r0 = inr (JObj fs0) ->
      truthy (field "needs_followup" fs0) = false ->
      server env 1 Text.tickets
             (TicketBody (userId s) inquiry (composed inquiry Description))
      = Responds r ->
      ok r = true -> payload r = inr (JObj fs) ->
      template (field "time_to_submit_ms" fs) = Ok ms ->
      accepted env inquiry Description s app_followups
  | accepted_by_finalize r0 fs0 js qs r fs ms table :
      server env 0 Text.ai_followups
             (TicketBody (userId s) inquiry (composed inquiry Description))
      = Responds r0 ->
      ok r0 = true -> payload r0 = inr (JObj fs0) ->
      truthy (field "needs_followup" fs0) = true ->
      field "questions" fs0 = Some (JArr js) ->
      Forall2 represents js qs ->
      server env 1 Text.ai_finalize
             (FinalizeBody (userId s) (file_answers env 0 qs ∅))
      = Responds r ->
      ok r = true -> payload r = inr (JObj fs) ->
      template (field "time_to_submit_ms" fs) = Ok ms ->
      template (field "log_table" fs) = Ok table ->
      accepted env inquiry Description s app_followups.

(** * Properties *)

(** ** The identity parser *)

Lemma is_digit_N c : is_digit c = true -> (48 <= N_of_ascii c <= 57)%N.
Proof. unfold is_digit. cbv zeta. rewrite andb_true_iff, !N.leb_le. tauto. Qed.

Lemma digit_value_range c : is_digit c = true -> 0 <= digit_value c <= 9.
Proof. intros H%is_digit_N. unfold digit_value. lia. Qed.

Lemma append_nil (s : string) : EmptyString +:+ s = s.
Proof. reflexivity. Qed.

Lemma append_cons (c : ascii) (s t : string) : String c s +:+ t = String c (s +:+ t).
Proof. reflexivity. Qed.

Lemma strip_prefix_Some p s rest : strip_prefix p s = Some rest <-> s = p +:+ rest.
Proof.
  revert s. induction p as [|a p IH]; intros s; simpl;
    rewrite ?append_nil, ?append_cons.
  - split; congruence.
  - destruct s as [|b s]; [split; discriminate|].
    destruct (Ascii.eqb_spec a b) as [->|Hne].
    + rewrite IH. split; [intros ->; reflexivity | now intros [= ->]].
    + split; [discriminate | intros [= -> _]; contradiction].
Qed.

Lemma match_user_re_numeral s m :
  match_user_re s = Some m -> user_numeral s (Number_of_digits m).
Proof.
  unfold match_user_re.
  destruct (strip_prefix "user" s) as [rest|] eqn:E; [|discriminate].
  apply strip_prefix_Some in E. subst s.
  destruct rest as [|d1 [|d2 [|d3 rest]]]; try discriminate.
  - destruct (is_digit d1) eqn:D1; [|discriminate].
    intros [= <-].
    replace (Number_of_digits (String d1 EmptyString)) with (digit_value d1)
      by (unfold Number_of_digits; simpl; lia).
    now constructor.
  - destruct (is_digit d1) eqn:D1; [|discriminate].
    destruct (is_digit d2) eqn:D2; [|discriminate].
    intros [= <-].
    replace (Number_of_digits (String d1 (String d2 EmptyString)))
      with (10 * digit_value d1 + digit_value d2)
      by (unfold Number_of_digits; simpl; lia).
    now constructor.
Qed.

Lemma user_numeral_match s n :
  user_numeral s n ->
  exists m, match_user_re s = Some m /\ Number_of_digits m = n.
Proof.
  intros [d1 D1|d1 d2 D1 D2]; unfold match_user_re.
  - replace (strip_prefix "user" ("user" +:+ String d1 EmptyString))
      with (Some (String d1 EmptyString)) by (symmetry; now apply strip_prefix_Some).
    rewrite D1. eexists; split; [reflexivity|].
    unfold Number_of_digits; simpl; lia.
  - replace (strip_prefix "user" ("user" +:+ String d1 (String d2 EmptyString)))
      with (Some (String d1 (String d2 EmptyString)))
      by (symmetry; now apply strip_prefix_Some).
    rewrite D1, D2. eexists; split; [reflexivity|].
    unfold Number_of_digits; simpl; lia.
Qed.

Lemma user_numeral_bound s n : user_numeral s n -> 0 <= n <= 99.
Proof.
  intros [d1 D1|d1 d2 D1 D2];
    repeat match goal with
           | H : is_digit _ = true |- _ => apply digit_value_range in H
           end; lia.
Qed.

Lemma parseUserId_Some s n : parseUserId s = Some n <-> accepted_username s n.
Proof.
  unfold parseUserId, accepted_username. split.
  - destruct (match_user_re (toLowerCase (trim s))) as [m|] eqn:E; [|discriminate].
    apply match_user_re_numeral in E.
    destruct (Number_of_digits m <? 1) eqn:L1; [discriminate|].
    destruct (Number_of_digits m >? 99) eqn:L2; [discriminate|].
    simpl. intros [= <-]. split; [assumption|]. lia.
  - intros [Hn Hr]. apply user_numeral_match in Hn as (m & -> & <-).
    destruct (Number_of_digits m <? 1) eqn:L1; [lia|].
    destruct (Number_of_digits m >? 99) eqn:L2; [lia|].
    reflexivity.
Qed.

Lemma parseUserId_range s n : parseUserId s = Some n -> 1 <= n <= 99.
Proof. intros H%parseUserId_Some. apply H. Qed.

(** C1. [parseUserId] returns the integer [n] exactly when the trimmed,
    lower-cased input is [user] followed by one or two decimal digits that
    denote [n], and [n] lies in [1,99]; on every other input it returns
    [null]. ["  User7  "] parses to 7, and ["user0"], ["user100"],
    ["admin1"] and ["user1x"] are invalid. *)
Theorem parseUserId_accepts_exactly :
  (forall s n, parseUserId s = Some n <-> accepted_username s n)
  /\ (forall s, parseUserId s = None <-> ~ exists n, accepted_username s n)
  /\ parseUserId "  User7  " = Some 7
  /\ parseUserId "user0" = None
  /\ parseUserId "user100" = None
  /\ parseUserId "admin1" = None
  /\ parseUserId "user1x" = None.
Proof.
  split; [exact parseUserId_Some|].
  split; [|repeat split; reflexivity].
  intros s. split.
  - intros H [n Hn%parseUserId_Some]. congruence.
  - intros H. destruct (parseUserId s) as [n|] eqn:E; [|reflexivity].
    exfalso. apply H. exists n. now apply parseUserId_Some.
Qed.

(** ** Running the script *)

#[local] Arguments get : simpl never.
#[local] Arguments template : simpl never.
#[local] Arguments dom_string : simpl never.
#[local] Arguments array_join : simpl never.
#[local] Arguments iterate : simpl never.
#[local] Arguments truthy : simpl never.
#[local] Arguments strict_eq_string : simpl never.
#[local] Arguments isArray : simpl never.

Ltac unfold_monad :=
  unfold call, try_catch, check_ok, res_json, fetch, prompt, lift, bind, ret,
    throw, return_, emit, read, write in *.

(** One case distinction on the next thing the environment or a payload
    decides. *)
Ltac crunch_step :=
  match goal with
  | |- context [match get ?v ?k with _ => _ end] => destruct (get v k)
  | |- context [match template ?v with _ => _ end] => destruct (template v)
  | |- context [match dom_string ?v with _ => _ end] => destruct (dom_string v)
  | |- context [match array_join ?v ?s with _ => _ end] => destruct (array_join v s)
  | |- context [match iterate ?v with _ => _ end] => destruct (iterate v)
  | |- context [if truthy ?v then _ else _] => destruct (truthy v)
  | |- context [if strict_eq_string ?v ?s then _ else _] =>
      destruct (strict_eq_string v s)
  | |- context [if isArray ?v then _ else _] => destruct (isArray v)
  | |- context [match server ?e ?n ?u ?b with _ => _ end] => destruct (server e n u b)
  | |- context [match payload ?r with _ => _ end] => destruct (payload r)
  | |- context [ok ?r] => destruct (ok r)
  end; simpl.

Ltac crunch := simpl; repeat crunch_step.

Ltac leaf :=
  simpl; rewrite <- ?app_assoc; simpl;
  first [ apply run_followups_failed | apply run_ticket_failed
        | apply run_ticket_sent | apply (run_questions_failed _ _ _ [])
        | apply run_questions_failed
        | apply run_finalize_failed | apply run_finalized
        | apply run_direct_failed | apply run_direct_sent ].

Lemma world_eta (w : world) : {| vars := vars w; trace := trace w ++ [] |} = w.
Proof. destruct w. simpl. now rewrite app_nil_r. Qed.

Lemma get_cases (j : json) :
  (exists e, forall k, get (Some j) k = Raise e)
  \/ (forall k, exists v, get (Some j) k = Ok v).
Proof.
  destruct j; try (right; intros k; eexists; reflexivity).
  left. eexists. intros k. reflexivity.
Qed.

Lemma fetches_prompts (texts : list string) : fetches (map Prompt texts) = [].
Proof. induction texts; simpl; auto. Qed.

Lemma prompts_prompts (texts : list string) :
  prompts (map Prompt texts) = map Prompt texts.
Proof. induction texts; simpl; congruence. Qed.

Lemma urls_prompts (texts : list string) : urls (map Prompt texts) = [].
Proof. induction texts; simpl; auto. Qed.

Lemma urls_app (tr1 tr2 : list event) : urls (tr1 ++ tr2) = (urls tr1 ++ urls tr2)%list.
Proof. unfold urls. apply omap_app. Qed.

Lemma fetches_app (tr1 tr2 : list event) :
  fetches (tr1 ++ tr2) = (fetches tr1 ++ fetches tr2)%list.
Proof. unfold fetches. apply List.filter_app. Qed.

Lemma prompts_app (tr1 tr2 : list event) :
  prompts (tr1 ++ tr2) = (prompts tr1 ++ prompts tr2)%list.
Proof. unfold prompts. apply List.filter_app. Qed.

Section Runs.

Variable env : environment.

(** A question is asked with at most one prompt, and with exactly one
    when nothing is thrown; the variables are not touched. *)
Lemma ask_run (q : json) (w : world) :
  exists c texts,
    AppFollowups.ask env q w
    = (c, {| vars := vars w; trace := trace w ++ map Prompt texts |})
    /\ c <> Return
    /\ (length texts <= 1)%nat
    /\ (forall a, c = Normal a -> length texts = 1%nat).
Proof.
  unfold AppFollowups.ask, AppFollowups.shows_choices. unfold_monad.
  crunch;
    first
      [ by (eexists _, []; simpl; rewrite world_eta; repeat split; auto; discriminate)
      | by (eexists _, [_]; simpl; repeat split; auto; discriminate) ].
Qed.

(** The loop shows at most one prompt per question, and exactly one per
    question when it runs to its end. *)
Lemma collect_run (qs : list json) :
  forall answers w,
  exists c texts,
    AppFollowups.collect env qs answers w
    = (c, {| vars := vars w; trace := trace w ++ map Prompt texts |})
    /\ c <> Return
    /\ (length texts <= length qs)%nat
    /\ (forall a, c = Normal a -> length texts = length qs).
Proof.
  induction qs as [|q qs IH]; intros answers w; simpl.
  - exists (Normal answers), []. simpl. rewrite world_eta.
    repeat split; auto; discriminate.
  - unfold bind at 1.
    destruct (ask_run q w) as (c & texts & -> & Hc & Hle & Hn).
    destruct c as [answer| |e]; [|done|].
    + specialize (Hn _ eq_refl).
      unfold lift, bind, ret, throw.
      destruct (get (Some q) "id") as [id|e]; simpl.
      2:{ exists (Throw e), texts. repeat split; auto; try discriminate. lia. }
      destruct (template id) as [k|e]; simpl.
      2:{ exists (Throw e), texts. repeat split; auto; try discriminate. lia. }
      match goal with
      | |- context [AppFollowups.collect env qs ?a ?w'] =>
          destruct (IH a w') as (c' & texts' & -> & Hc' & Hle' & Hn')
      end.
      simpl. exists c', (texts ++ texts')%list.
      rewrite map_app, app_assoc, length_app.
      repeat split; auto; [lia|]. intros a Ha. rewrite (Hn' _ Ha). lia.
    + exists (Throw e), texts. repeat split; auto; try discriminate. lia.
Qed.

(** Every run of the [try] block from a confirmed session with a valid
    form is one of the six of [followups_run]. *)
Lemma followups_cases inquiry Description s :
  ready s -> valid_form inquiry Description ->
  followups_run s (TicketBody (userId s) inquiry (composed inquiry Description))
    (AppFollowups.submitForm_try env inquiry Description (start s)).
Proof.
  intros [Hc Hu] (Hi1 & Hi2 & Hd).
  unfold AppFollowups.submitForm_try, composed, start.
  destruct s as [u c]; simpl in Hc, Hu; subst c.
  unfold_monad. simpl.
  rewrite Hu. simpl.
  apply String.eqb_neq in Hi1, Hi2, Hd. rewrite Hi1, Hi2, Hd. simpl.
  destruct (server env 0 _ _) as [reason|followRes]; [leaf|].
  destruct (payload followRes) as [reason|followData]; [leaf|].
  destruct (ok followRes); simpl.
  2:{ crunch; leaf. }
  destruct (get (Some followData) "needs_followup") as [needs|e]; [|leaf].
  destruct (truthy needs); simpl.
  - destruct (get (Some followData) "questions") as [questions|e]; [|leaf].
    destruct (iterate questions) as [qs|e]; [|leaf].
    match goal with
    | |- context [AppFollowups.collect env qs ?a ?w'] =>
        destruct (collect_run qs a w') as (c' & texts & -> & Hc' & Hle' & Hn')
    end.
    destruct c' as [answers| |e]; [|done|leaf].
    simpl.
    destruct (server env _ _ _) as [reason|finRes]; [leaf|].
    destruct (payload finRes) as [reason|finData]; [leaf|].
    destruct (ok finRes); simpl.
    2:{ crunch; leaf. }
    destruct (get_cases finData) as [[e He]|Hget].
    { rewrite He. leaf. }
    destruct (Hget "time_to_submit_ms") as [ms ->].
    destruct (Hget "log_table") as [table ->].
    destruct (Hget "final") as [final ->].
    crunch; leaf.
  - destruct (server env _ _ _) as [reason|res]; [leaf|].
    destruct (payload res) as [reason|data]; [leaf|].
    destruct (ok res); simpl.
    2:{ crunch; leaf. }
    crunch; leaf.
Qed.

Lemma direct_cases inquiry Description s :
  ready s -> valid_form inquiry Description ->
  direct_run s (TicketBody (userId s) inquiry (composed inquiry Description))
    (AppJs.submitForm_try env inquiry Description (start s)).
Proof.
  intros [Hc Hu] (Hi1 & Hi2 & Hd).
  unfold AppJs.submitForm_try, composed, start.
  destruct s as [u c]; simpl in Hc, Hu; subst c.
  unfold_monad. simpl.
  rewrite Hu. simpl.
  apply String.eqb_neq in Hi1, Hi2, Hd. rewrite Hi1, Hi2, Hd. simpl.
  destruct (server env 0 _ _) as [reason|res]; [leaf|].
  destruct (payload res) as [reason|data]; [leaf|].
  destruct (ok res); simpl.
  2:{ crunch; leaf. }
  crunch; leaf.
Qed.

End Runs.

(** ** The guards of [submitForm] *)

Lemma ready_or_rejected s inquiry Description :
  (ready s /\ valid_form inquiry Description) \/ rejected s inquiry Description.
Proof.
  unfold ready, valid_form, rejected.
  destruct (confirmed s); [|auto].
  destruct (truthy_id (userId s)); [|auto].
  destruct (String.eqb_spec inquiry ""); [auto|].
  destruct (String.eqb_spec inquiry Text.placeholder); [auto 6|].
  destruct (String.eqb_spec (trim Description) ""); [auto 6|].
  left. auto.
Qed.

Lemma rejected_not_ready s inquiry Description :
  rejected s inquiry Description -> ~ (ready s /\ valid_form inquiry Description).
Proof.
  unfold ready, valid_form, rejected. intros H [[Hc Hu] (H1 & H2 & H3)].
  destruct H as [H|[H|[H|[H|H]]]]; congruence.
Qed.

(** A rejected call leaves the [try] block by [return], after one alert. *)
Lemma rejected_run v env inquiry Description s :
  rejected s inquiry Description ->
  exists msg,
    submitForm_try v env inquiry Description (start s)
    = (Return, {| vars := s; trace := [Alert msg] |}).
Proof.
  intros H. destruct s as [u c].
  destruct v; unfold submitForm_try, AppJs.submitForm_try,
    AppFollowups.submitForm_try, start; unfold_monad; simpl.
  all: destruct c; simpl; [|eexists; reflexivity].
  all: destruct (truthy_id u) eqn:Hu; simpl; [|eexists; reflexivity].
  all: destruct (String.eqb_spec inquiry ""); simpl; [eexists; reflexivity|].
  all: destruct (String.eqb_spec inquiry Text.placeholder); simpl;
    [eexists; reflexivity|].
  all: destruct (String.eqb_spec (trim Description) ""); simpl;
    [eexists; reflexivity|].
  all: exfalso; unfold rejected in H; simpl in H; rewrite Hu in H;
    destruct H as [H|[H|[H|[H|H]]]]; congruence.
Qed.

(** The function is its [try] block, followed by the [catch] clause when
    the block throws. *)
Lemma submitForm_of_try v env inquiry Description s :
  submitForm v env inquiry Description s
  = match submitForm_try v env inquiry Description (start s) with
    | (Throw e, w) => {| vars := vars w; trace := trace w ++ report e |}
    | (_, w) => w
    end.
Proof.
  destruct v; unfold submitForm, AppJs.submitForm, AppFollowups.submitForm,
    AppJs.submitForm_body, AppFollowups.submitForm_body, call, try_catch,
    submitForm_try, start;
    match goal with
    | |- context [?f env inquiry Description ?w] =>
        destruct (f env inquiry Description w) as [[[]| |e] w']
    end; try reflexivity;
    unfold AppJs.submitForm_catch, AppFollowups.submitForm_catch, report;
    unfold_monad; simpl; now rewrite <- app_assoc.
Qed.

Lemma endpoints_distinct :
  Text.ai_followups <> Text.tickets /\ Text.ai_followups <> Text.ai_finalize.
Proof. split; intros H; vm_compute in H; discriminate. Qed.

Lemma NoDup_pair (a b : string) : a <> b -> NoDup [a; b].
Proof.
  intros H. apply NoDup_cons. split; [|apply NoDup_singleton].
  rewrite list_elem_of_In. simpl. intuition.
Qed.

(** A run of the [try] block requests no endpoint twice. *)
Lemma try_requests_once v env inquiry Description s :
  NoDup (urls (trace (snd (submitForm_try v env inquiry Description (start s))))).
Proof.
  destruct (ready_or_rejected s inquiry Description) as [[Hr Hv]|Hrej].
  - destruct endpoints_distinct as [H1 H2].
    destruct v; simpl.
    + destruct (direct_cases env inquiry Description s Hr Hv); simpl;
        apply NoDup_singleton.
    + destruct (followups_cases env inquiry Description s Hr Hv); simpl;
        rewrite ?urls_app, ?urls_prompts; simpl;
        first [apply NoDup_singleton | apply NoDup_pair; assumption].
  - destruct (rejected_run v env _ _ _ Hrej) as [msg ->]. simpl. constructor.
Qed.

(** ** Confirming the identity *)

Lemma parsed_id_truthy username id :
  parseUserId username = Some id -> truthy_id (Some id) = true.
Proof.
  intros H%parseUserId_range. simpl. destruct (Z.eqb_spec id 0); [lia|reflexivity].
Qed.

Lemma confirm_invalid v env username tableChoice s :
  parseUserId username = None ->
  confirmUser v env username tableChoice s
  = {| vars := s; trace := [StatusText Text.invalid_username; StatusColor "red"] |}.
Proof.
  intros H.
  destruct v; unfold confirmUser, AppJs.confirmUser, AppFollowups.confirmUser,
    AppJs.confirmUser_body, AppFollowups.confirmUser_body, call;
    rewrite H; reflexivity.
Qed.

Lemma confirm_success v env username tableChoice s id r data :
  parseUserId username = Some id ->
  server env 0 Text.draft_start (draft_body v (Some id) tableChoice) = Responds r ->
  ok r = true -> payload r = inr data ->
  vars (confirmUser v env username tableChoice s)
  = {| userId := Some id; confirmed := true |}.
Proof.
  intros Hid Hs Hok Hp. pose proof (parsed_id_truthy _ _ Hid) as Ht.
  destruct v; unfold confirmUser, AppJs.confirmUser, AppFollowups.confirmUser,
    AppJs.confirmUser_body, AppFollowups.confirmUser_body,
    AppJs.confirmUser_try, AppFollowups.confirmUser_try, draft_body in *;
    rewrite Hid, Ht; unfold_monad; simpl; rewrite Hs; simpl;
    rewrite Hp, Hok; reflexivity.
Qed.

Lemma confirm_failure v env username tableChoice s id :
  parseUserId username = Some id ->
  draft_fails (server env 0 Text.draft_start (draft_body v (Some id) tableChoice)) ->
  exists e,
    confirmUser v env username tableChoice s
    = {| vars := s;
         trace := [Fetch Text.draft_start (draft_body v (Some id) tableChoice);
                   ConsoleError e;
                   StatusText (Text.timer_failed +:+ message e);
                   StatusColor "red"] |}.
Proof.
  intros Hid Hf. pose proof (parsed_id_truthy _ _ Hid) as Ht.
  destruct v; unfold confirmUser, AppJs.confirmUser, AppFollowups.confirmUser,
    AppJs.confirmUser_body, AppFollowups.confirmUser_body,
    AppJs.confirmUser_try, AppFollowups.confirmUser_try,
    AppJs.confirmUser_catch, AppFollowups.confirmUser_catch, draft_body in *;
    rewrite Hid, Ht; unfold_monad; simpl;
    (destruct (server env 0 _ _) as [reason|r]; simpl in *;
     [exists (Rejection reason); reflexivity|]);
    (destruct (payload r) as [reason|data]; simpl;
     [exists (Rejection reason); reflexivity|]);
    (destruct Hf as [Hok|[reason Hp]]; [|discriminate]);
    rewrite Hok; crunch;
    match goal with
    | |- context [ConsoleError ?e] => exists e; reflexivity
    end.
Qed.

(** A run of [confirmUser] either leaves the variables as they were, or
    sets both of them after an accepted draft-start request. *)
Lemma confirm_cases v env username tableChoice s :
  vars (confirmUser v env username tableChoice s) = s
  \/ exists id r data,
       parseUserId username = Some id
       /\ server env 0 Text.draft_start (draft_body v (Some id) tableChoice) = Responds r
       /\ ok r = true /\ payload r = inr data
       /\ vars (confirmUser v env username tableChoice s)
          = {| userId := Some id; confirmed := true |}.
Proof.
  destruct (parseUserId username) as [id|] eqn:Hid.
  2:{ left. now rewrite confirm_invalid. }
  destruct (server env 0 Text.draft_start (draft_body v (Some id) tableChoice))
    as [reason|r] eqn:Hs.
  { left. destruct (confirm_failure v env username tableChoice s id Hid) as [e ->];
      [now rewrite Hs|reflexivity]. }
  destruct (ok r) eqn:Hok.
  2:{ left. destruct (confirm_failure v env username tableChoice s id Hid) as [e ->];
        [rewrite Hs; now left|reflexivity]. }
  destruct (payload r) as [reason|data] eqn:Hp.
  { left. destruct (confirm_failure v env username tableChoice s id Hid) as [e ->];
      [rewrite Hs; right; eauto|reflexivity]. }
  right. exists id, r, data. repeat split; auto.
  eapply confirm_success; eauto.
Qed.

(** C2, as amended. With a valid username, an accepted draft-start request
    sets the session to confirmed with the parsed id, from every session;
    a failed one (network failure, response not ok, body that is no JSON)
    leaves the session exactly as it was, so [confirmed] is false
    afterwards when it was false before. *)
Theorem confirm_sets_on_success_keeps_on_failure
    v env username tableChoice s id :
  parseUserId username = Some id ->
  let request := server env 0 Text.draft_start (draft_body v (Some id) tableChoice) in
  let s' := vars (confirmUser v env username tableChoice s) in
  (forall r data,
      request = Responds r -> ok r = true -> payload r = inr data ->
      s' = {| userId := Some id; confirmed := true |})
  /\ (draft_fails request -> s' = s)
  /\ (draft_fails request -> confirmed s = false -> confirmed s' = false).
Proof.
  intros Hid request s'. subst request s'. split; [|split].
  - intros r data Hs Hok Hp. eapply confirm_success; eauto.
  - intros Hf. destruct (confirm_failure v env username tableChoice s id Hid Hf)
      as [e ->]. reflexivity.
  - intros Hf Hc. destruct (confirm_failure v env username tableChoice s id Hid Hf)
      as [e ->]. exact Hc.
Qed.

Lemma confirm_sets_on_success_keeps_on_failure_witness :
  parseUserId "User7" = Some 7
  /\ (let request :=
        server Sample.plain 0 Text.draft_start
               (draft_body app_followups (Some 7) (JNum 3)) in
      let s' := vars (confirmUser app_followups Sample.plain "User7" (JNum 3) initial) in
      (forall r data,
          request = Responds r -> ok r = true -> payload r = inr data ->
          s' = {| userId := Some 7; confirmed := true |})
      /\ (draft_fails request -> s' = initial)
      /\ (draft_fails request -> confirmed initial = false -> confirmed s' = false)).
Proof.
  split; [reflexivity|].
  apply (confirm_sets_on_success_keeps_on_failure
           app_followups Sample.plain "User7" (JNum 3) initial 7).
  reflexivity.
Defined.

(** C2, as stated, fails: from a confirmed session, a draft-start request
    that fails leaves [confirmed] true. *)
Lemma confirm_failure_keeps_confirmed :
  let s := {| userId := Some 5; confirmed := true |} in
  parseUserId "user7" = Some 7
  /\ draft_fails (server Sample.offline 0 Text.draft_start
                         (draft_body app_followups (Some 7) (JNum 3)))
  /\ vars (confirmUser app_followups Sample.offline "user7" (JNum 3) s) = s
  /\ confirmed (vars (confirmUser app_followups Sample.offline "user7" (JNum 3) s))
     <> false.
Proof.
  cbv zeta. split; [reflexivity|]. split; [exact I|].
  split; [reflexivity|]. vm_compute. discriminate.
Qed.

(** ** Submitting the form *)

Lemma try_vars v env inquiry Description s :
  let r := submitForm_try v env inquiry Description (start s) in
  match fst r with
  | Normal _ => vars (snd r) = initial
  | _ => vars (snd r) = s
  end.
Proof.
  cbv zeta.
  destruct (ready_or_rejected s inquiry Description) as [[Hr Hv]|Hrej].
  - destruct v; simpl.
    + destruct (direct_cases env inquiry Description s Hr Hv); reflexivity.
    + destruct (followups_cases env inquiry Description s Hr Hv); reflexivity.
  - destruct (rejected_run v env _ _ _ Hrej) as [msg ->]. reflexivity.
Qed.

Lemma submit_vars v env inquiry Description s :
  vars (submitForm v env inquiry Description s) = s
  \/ vars (submitForm v env inquiry Description s) = initial.
Proof.
  rewrite submitForm_of_try.
  pose proof (try_vars v env inquiry Description s) as H. cbv zeta in H.
  destruct (submitForm_try v env inquiry Description (start s)) as [[[]| |e] w];
    simpl in *; auto.
Qed.

(** C4. A call of [submitForm] with the session not confirmed, with the
    inquiry left at the placeholder or empty, or with a description that is
    empty once trimmed, shows one alert, sends no request and leaves the
    session as it was. *)
Theorem submit_rejected_without_request v env inquiry Description s :
  confirmed s = false \/ inquiry = Text.placeholder \/ inquiry = ""
  \/ trim Description = "" ->
  let w := submitForm v env inquiry Description s in
  vars w = s /\ fetches (trace w) = [] /\ exists msg, trace w = [Alert msg].
Proof.
  intros H.
  assert (Hrej : rejected s inquiry Description)
    by (unfold rejected; tauto).
  cbv zeta. rewrite submitForm_of_try.
  destruct (rejected_run v env _ _ _ Hrej) as [msg ->]. simpl. eauto.
Qed.

Lemma submit_rejected_without_request_witness :
  (confirmed Sample.user7 = false \/ "Billing" = Text.placeholder \/ "Billing" = ""
   \/ trim "   " = "")
  /\ (let w := submitForm app_followups Sample.plain "Billing" "   " Sample.user7 in
      vars w = Sample.user7 /\ fetches (trace w) = []
      /\ exists msg, trace w = [Alert msg]).
Proof.
  assert (H : confirmed Sample.user7 = false \/ "Billing" = Text.placeholder
              \/ "Billing" = "" \/ trim "   " = "")
    by (right; right; right; reflexivity).
  split; [exact H|].
  exact (submit_rejected_without_request app_followups Sample.plain
           "Billing" "   " Sample.user7 H).
Defined.

Lemma no_fetch_among_prompts url b (texts : list string) :
  ~ In (Fetch url b) (map Prompt texts).
Proof. intros (t & Ht & _)%in_map_iff. discriminate. Qed.

(** C7. A submission that passes the checks sends, first of all, a request
    with the title [inquiry] and the description
    ["Kategori: " + inquiry + "\n\n" + trim(Description)], and every
    request of the run that carries a title and a description carries
    these. Inquiry "Billing" with description "late fee" gives the
    description ["Kategori: Billing\n\nlate fee"]. *)
Theorem submit_composes_title_and_description v env inquiry Description s :
  ready s -> valid_form inquiry Description ->
  let w := submitForm v env inquiry Description s in
  let description := "Kategori: " +:+ inquiry +:+ LF +:+ LF +:+ trim Description in
  (exists rest,
      trace w = Fetch (first_endpoint v) (TicketBody (userId s) inquiry description)
                :: rest)
  /\ (forall url u t d,
         In (Fetch url (TicketBody u t d)) (trace w) ->
         t = inquiry /\ d = description)
  /\ "Kategori: " +:+ "Billing" +:+ LF +:+ LF +:+ trim "late fee"
     = "Kategori: Billing" +:+ LF +:+ LF +:+ "late fee".
Proof.
  intros Hr Hv. cbv zeta. rewrite submitForm_of_try.
  split; [|split; [|reflexivity]].
  - destruct v; simpl.
    + destruct (direct_cases env inquiry Description s Hr Hv); simpl; eauto.
    + destruct (followups_cases env inquiry Description s Hr Hv); simpl; eauto.
  - intros url u t d.
    destruct v; simpl.
    + destruct (direct_cases env inquiry Description s Hr Hv); simpl;
        unfold composed; intuition congruence.
    + destruct (followups_cases env inquiry Description s Hr Hv); simpl;
        rewrite ?in_app_iff; simpl; unfold composed;
        intuition (try congruence);
        exfalso; eapply no_fetch_among_prompts; eauto.
Qed.

Lemma submit_composes_title_and_description_witness :
  ready Sample.user7 /\ valid_form "Billing" "late fee"
  /\ (let w := submitForm app_followups Sample.plain "Billing" "late fee" Sample.user7 in
      let description := "Kategori: " +:+ "Billing" +:+ LF +:+ LF +:+ trim "late fee" in
      (exists rest,
          trace w = Fetch (first_endpoint app_followups)
                          (TicketBody (userId Sample.user7) "Billing" description)
                    :: rest)
      /\ (forall url u t d,
             In (Fetch url (TicketBody u t d)) (trace w) ->
             t = "Billing" /\ d = description)
      /\ "Kategori: " +:+ "Billing" +:+ LF +:+ LF +:+ trim "late fee"
         = "Kategori: Billing" +:+ LF +:+ LF +:+ "late fee").
Proof.
  assert (Hr : ready Sample.user7) by (split; reflexivity).
  assert (Hv : valid_form "Billing" "late fee")
    by (repeat split; intros H; vm_compute in H; discriminate).
  split; [exact Hr|]. split; [exact Hv|].
  exact (submit_composes_title_and_description app_followups Sample.plain
           "Billing" "late fee" Sample.user7 Hr Hv).
Defined.

(** A network failure and a refusal with an [error] member are raised as
    exceptions by the first request of [submitForm]. *)
Lemma submit_raises_on_network_failure v env inquiry Description s reason :
  ready s -> valid_form inquiry Description ->
  server env 0 (first_endpoint v)
         (TicketBody (userId s) inquiry (composed inquiry Description))
  = NetworkFailure reason ->
  submit_raises v env inquiry Description s (Rejection reason).
Proof.
  intros [Hc Hu] (Hi1 & Hi2 & Hd) Hs. unfold submit_raises.
  destruct s as [u c]; simpl in Hc, Hu, Hs; subst c.
  apply String.eqb_neq in Hi1, Hi2, Hd.
  destruct v; unfold submitForm_try, AppJs.submitForm_try,
    AppFollowups.submitForm_try, start, first_endpoint, composed in *;
    unfold_monad; simpl; rewrite Hu; simpl; rewrite Hi1, Hi2, Hd; simpl;
    rewrite Hs; reflexivity.
Qed.

Lemma submit_raises_on_refusal v env inquiry Description s r fs msg :
  ready s -> valid_form inquiry Description ->
  server env 0 (first_endpoint v)
         (TicketBody (userId s) inquiry (composed inquiry Description))
  = Responds r ->
  ok r = false -> payload r = inr (JObj fs) ->
  field "error" fs = Some (JStr msg) -> msg <> "" ->
  submit_raises v env inquiry Description s (Error msg).
Proof.
  intros [Hc Hu] (Hi1 & Hi2 & Hd) Hs Hok Hp Hf Hm. unfold submit_raises.
  destruct s as [u c]; simpl in Hc, Hu, Hs; subst c.
  apply String.eqb_neq in Hi1, Hi2, Hd, Hm.
  destruct v; unfold submitForm_try, AppJs.submitForm_try,
    AppFollowups.submitForm_try, start, first_endpoint, composed in *;
    unfold_monad; simpl; rewrite Hu; simpl; rewrite Hi1, Hi2, Hd; simpl;
    rewrite Hs; simpl; rewrite Hp, Hok; simpl;
    unfold get, truthy, template; rewrite Hf; simpl; rewrite Hm; reflexivity.
Qed.

(** C8. When a step of [submitForm] raises an exception, the function
    stops there: the [catch] clause logs the exception and alerts its
    message, nothing else follows, the session is what it was when the
    call began, and no endpoint has been requested twice. *)
Theorem submit_exception_keeps_session v env inquiry Description s e :
  submit_raises v env inquiry Description s e ->
  let w := submitForm v env inquiry Description s in
  vars w = s
  /\ trace w = (trace (snd (submitForm_try v env inquiry Description (start s)))
                ++ [ConsoleError e; Alert (Text.went_wrong +:+ message e)])%list
  /\ NoDup (urls (trace w))
  /\ (length (fetches (trace w)) <= 2)%nat.
Proof.
  unfold submit_raises. intros H. cbv zeta. rewrite submitForm_of_try.
  pose proof (try_vars v env inquiry Description s) as Hv.
  pose proof (try_requests_once v env inquiry Description s) as Hn.
  assert (Hl : (length (fetches (trace (snd (submitForm_try v env inquiry
                                               Description (start s))))) <= 2)%nat).
  { destruct (ready_or_rejected s inquiry Description) as [[Hr Hf]|Hrej].
    - destruct v; simpl.
      + destruct (direct_cases env inquiry Description s Hr Hf); simpl; lia.
      + destruct (followups_cases env inquiry Description s Hr Hf); simpl;
          rewrite ?fetches_app, ?fetches_prompts; simpl; lia.
    - destruct (rejected_run v env _ _ _ Hrej) as [msg ->]. simpl. lia. }
  cbv zeta in Hv.
  destruct (submitForm_try v env inquiry Description (start s)) as [c w].
  simpl in *. subst c. simpl.
  repeat split; auto.
  - rewrite urls_app. simpl. now rewrite app_nil_r.
  - rewrite fetches_app. simpl. now rewrite app_nil_r.
Qed.

Lemma submit_exception_keeps_session_witness :
  submit_raises app_followups Sample.offline "Billing" "late fee" Sample.user7
                (Rejection "Failed to fetch")
  /\ (let w := submitForm app_followups Sample.offline "Billing" "late fee"
                          Sample.user7 in
      vars w = Sample.user7
      /\ trace w = (trace (snd (submitForm_try app_followups Sample.offline
                                  "Billing" "late fee" (start Sample.user7)))
                    ++ [ConsoleError (Rejection "Failed to fetch");
                        Alert (Text.went_wrong +:+ message (Rejection "Failed to fetch"))])%list
      /\ NoDup (urls (trace w))
      /\ (length (fetches (trace w)) <= 2)%nat).
Proof.
  assert (H : submit_raises app_followups Sample.offline "Billing" "late fee"
                Sample.user7 (Rejection "Failed to fetch"))
    by (vm_compute; reflexivity).
  split; [exact H|].
  exact (submit_exception_keeps_session app_followups Sample.offline
           "Billing" "late fee" Sample.user7 (Rejection "Failed to fetch") H).
Defined.

(** ** The invariant of the session *)

Lemma consistent_initial : consistent initial.
Proof.
  unfold consistent, initial; simpl. split; [discriminate|].
  intros (n & Hn & _). discriminate.
Qed.

Lemma consistent_confirmed username id :
  parseUserId username = Some id ->
  consistent {| userId := Some id; confirmed := true |}.
Proof.
  intros H%parseUserId_range. unfold consistent; simpl.
  split; [|reflexivity]. intros _. exists id. auto.
Qed.

(** C9. In the initial session and after every run of [confirmUser] and
    of [submitForm], [confirmed] is true exactly when [userId] holds an
    integer in [1,99]: a run of [confirmUser] leaves both variables as they
    were or sets both, and a run of [submitForm] leaves both as they were
    or clears both. *)
Theorem session_consistent v s :
  reachable v s ->
  consistent s
  /\ (forall env username tableChoice,
         let s' := vars (confirmUser v env username tableChoice s) in
         s' = s
         \/ exists id, parseUserId username = Some id
                       /\ s' = {| userId := Some id; confirmed := true |})
  /\ (forall env inquiry Description,
         let s' := vars (submitForm v env inquiry Description s) in
         s' = s \/ s' = initial).
Proof.
  intros Hreach. split; [|split].
  - induction Hreach as [|env username tableChoice s Hs IH
                          |env inquiry Description s Hs IH].
    + exact consistent_initial.
    + destruct (confirm_cases v env username tableChoice s)
        as [->|(id & r & data & Hid & _ & _ & _ & ->)]; [exact IH|].
      eapply consistent_confirmed; eauto.
    + destruct (submit_vars v env inquiry Description s) as [->| ->];
        [exact IH|exact consistent_initial].
  - intros env username tableChoice. cbv zeta.
    destruct (confirm_cases v env username tableChoice s)
      as [Hk|(id & r & data & Hid & _ & _ & _ & Hk)]; [now left|].
    right. exists id. auto.
  - intros env inquiry Description. apply submit_vars.
Qed.

Lemma session_consistent_witness :
  reachable app_followups
    (vars (confirmUser app_followups Sample.plain "user7" (JNum 3) initial))
  /\ (let s := vars (confirmUser app_followups Sample.plain "user7" (JNum 3) initial) in
      consistent s
      /\ (forall env username tableChoice,
             let s' := vars (confirmUser app_followups env username tableChoice s) in
             s' = s
             \/ exists id, parseUserId username = Some id
                           /\ s' = {| userId := Some id; confirmed := true |})
      /\ (forall env inquiry Description,
             let s' := vars (submitForm app_followups env inquiry Description s) in
             s' = s \/ s' = initial)).
Proof.
  assert (H : reachable app_followups
                (vars (confirmUser app_followups Sample.plain "user7" (JNum 3) initial)))
    by (apply reach_confirm, reach_initial).
  split; [exact H|].
  exact (session_consistent app_followups _ H).
Defined.

(** ** The path without follow-up *)

(** C6. When the follow-up determination answers with [needs_followup]
    false, the run sends two requests, the determination and then exactly
    one to [/api/tickets] carrying the user id, the title and the
    description, and shows no prompt. *)
Theorem no_followup_creates_ticket_directly
    env inquiry Description s followRes followData needs :
  ready s -> valid_form inquiry Description ->
  let b := TicketBody (userId s) inquiry (composed inquiry Description) in
  server env 0 Text.ai_followups b = Responds followRes ->
  ok followRes = true -> payload followRes = inr followData ->
  get (Some followData) "needs_followup" = Ok needs -> truthy needs = false ->
  let w := AppFollowups.submitForm env inquiry Description s in
  fetches (trace w) = [Fetch Text.ai_followups b; Fetch Text.tickets b]
  /\ List.filter (fun e => bool_decide (url_of e = Some Text.tickets)) (trace w)
     = [Fetch Text.tickets b]
  /\ prompts (trace w) = [].
Proof.
  intros [Hc Hu] (Hi1 & Hi2 & Hd) b Hs Hok Hp Hg Hn. subst b. cbv zeta.
  assert (Hurl : bool_decide (Some Text.ai_followups = Some Text.tickets) = false)
    by (vm_compute; reflexivity).
  assert (Hurl' : bool_decide (Some Text.tickets = Some Text.tickets) = true)
    by (apply bool_decide_eq_true_2; reflexivity).
  destruct s as [u c]; simpl in Hc, Hu, Hs; subst c.
  apply String.eqb_neq in Hi1, Hi2, Hd.
  unfold AppFollowups.submitForm, AppFollowups.submitForm_body,
    AppFollowups.submitForm_try, AppFollowups.submitForm_catch, composed in *.
  unfold_monad; simpl. rewrite Hu; simpl. rewrite Hi1, Hi2, Hd; simpl.
  rewrite Hs; simpl. rewrite Hp, Hok; simpl. rewrite Hg, Hn; simpl.
  crunch; rewrite ?Hurl, ?Hurl'; auto.
Qed.

Lemma no_followup_creates_ticket_directly_witness :
  let followRes :=
    {| ok := true;
       payload := inr (JObj [("needs_followup", JBool false);
                             ("time_to_submit_ms", JNum 12)]) |} in
  let b := TicketBody (userId Sample.user7) "Billing" (composed "Billing" "late fee") in
  ready Sample.user7 /\ valid_form "Billing" "late fee"
  /\ server Sample.plain 0 Text.ai_followups b = Responds followRes
  /\ (let w := AppFollowups.submitForm Sample.plain "Billing" "late fee" Sample.user7 in
      fetches (trace w) = [Fetch Text.ai_followups b; Fetch Text.tickets b]
      /\ List.filter (fun e => bool_decide (url_of e = Some Text.tickets)) (trace w)
         = [Fetch Text.tickets b]
      /\ prompts (trace w) = []).
Proof.
  cbv zeta.
  assert (Hr : ready Sample.user7) by (split; reflexivity).
  assert (Hv : valid_form "Billing" "late fee")
    by (repeat split; intros H; vm_compute in H; discriminate).
  split; [exact Hr|]. split; [exact Hv|]. split; [reflexivity|].
  exact (no_followup_creates_ticket_directly Sample.plain "Billing" "late fee"
           Sample.user7 _ _ (Some (JBool false)) Hr Hv
           eq_refl eq_refl eq_refl eq_refl eq_refl).
Defined.

(** ** The prompts of the follow-up questions *)

Lemma ask_without_choices env q w :
  AppFollowups.shows_choices q w = (Normal false, w) ->
  AppFollowups.ask env q w
  = (let* question := lift (get (Some q) "question") in
     let* text := lift (dom_string question) in
     let* given := prompt env text in
     ret (or_empty given)) w.
Proof. intros H. unfold AppFollowups.ask. unfold bind at 1. now rewrite H. Qed.

(** C10. A question of type [multiple_choice] whose [choices] member is
    absent, not an array or an empty array is asked exactly as a question
    of type [free_text] with the same text: by a prompt that shows the
    question text alone. *)
Theorem choices_missing_prompts_question_alone env fs fs' w :
  field "type" fs = Some (JStr "multiple_choice") ->
  field "choices" fs = None \/ isArray (field "choices" fs) = false
  \/ field "choices" fs = Some (JArr []) ->
  field "type" fs' = Some (JStr "free_text") ->
  field "question" fs' = field "question" fs ->
  AppFollowups.ask env (JObj fs) w = AppFollowups.ask env (JObj fs') w
  /\ (forall text,
         field "question" fs = Some (JStr text) ->
         AppFollowups.ask env (JObj fs) w
         = (Normal (or_empty (user env (length (prompts (trace w))) text)),
            {| vars := vars w; trace := trace w ++ [Prompt text] |})).
Proof.
  intros Hty Hch Hty' Hq.
  assert (Hno : AppFollowups.shows_choices (JObj fs) w = (Normal false, w)).
  { unfold AppFollowups.shows_choices, get. unfold_monad. simpl.
    rewrite Hty. simpl.
    destruct Hch as [Hch|[Hch|Hch]]; rewrite Hch; reflexivity. }
  assert (Hno' : AppFollowups.shows_choices (JObj fs') w = (Normal false, w)).
  { unfold AppFollowups.shows_choices, get. unfold_monad. simpl.
    rewrite Hty'. reflexivity. }
  rewrite (ask_without_choices env _ w Hno), (ask_without_choices env _ w Hno').
  unfold get. rewrite Hq. split; [reflexivity|].
  intros text Ht. rewrite Ht. reflexivity.
Qed.

Lemma choices_missing_prompts_question_alone_witness :
  let fs := [("id", JStr "q1"); ("question", JStr "Which invoice?");
             ("type", JStr "multiple_choice"); ("choices", JArr [])] in
  let fs' := [("id", JStr "q1"); ("question", JStr "Which invoice?");
              ("type", JStr "free_text")] in
  field "type" fs = Some (JStr "multiple_choice")
  /\ field "choices" fs = Some (JArr [])
  /\ field "type" fs' = Some (JStr "free_text")
  /\ field "question" fs' = field "question" fs
  /\ AppFollowups.ask Sample.plain (JObj fs) (start Sample.user7)
     = AppFollowups.ask Sample.plain (JObj fs') (start Sample.user7)
  /\ (forall text,
         field "question" fs = Some (JStr text) ->
         AppFollowups.ask Sample.plain (JObj fs) (start Sample.user7)
         = (Normal (or_empty (user Sample.plain
                                   (length (prompts (trace (start Sample.user7)))) text)),
            {| vars := vars (start Sample.user7);
               trace := trace (start Sample.user7) ++ [Prompt text] |})).
Proof.
  cbv zeta. do 4 (split; [reflexivity|]).
  exact (choices_missing_prompts_question_alone Sample.plain
           [("id", JStr "q1"); ("question", JStr "Which invoice?");
            ("type", JStr "multiple_choice"); ("choices", JArr [])]
           [("id", JStr "q1"); ("question", JStr "Which invoice?");
            ("type", JStr "free_text")]
           (start Sample.user7)
           eq_refl (or_intror (or_intror eq_refl)) eq_refl eq_refl).
Defined.

Lemma sequence_strings (cs : list string) :
  sequence (map (fun x => match x with
                          | JNull => Ok EmptyString
                          | _ => to_string x
                          end) (map JStr cs)) = Ok cs.
Proof. induction cs as [|c cs IH]; simpl; [reflexivity|]. now rewrite IH. Qed.

Lemma array_join_strings (cs : list string) (sep : string) :
  array_join (Some (JArr (map JStr cs))) sep = Ok (join sep cs).
Proof. unfold array_join. now rewrite sequence_strings. Qed.

Section Typed.

Variable env : environment.

(** A well-formed question is asked by one prompt, which shows what the
    specification says. *)
Lemma ask_encode (q : question) (w : world) :
  AppFollowups.ask env (encode q) w
  = (Normal (or_empty (user env (length (prompts (trace w))) (prompt_text q))),
     {| vars := vars w; trace := trace w ++ [Prompt (prompt_text q)] |}).
Proof.
  destruct q as [id text ty choices].
  unfold AppFollowups.ask, AppFollowups.shows_choices, prompt_text, encode.
  destruct ty, choices as [[|c cs]|]; try reflexivity.
  cbn [q_type q_choices q_question q_id type_name].
  unfold_monad.
  replace (get (Some (JObj [("id", id_json id); ("question", JStr text);
                            ("type", JStr "multiple_choice");
                            ("choices", JArr (map JStr (c :: cs)))])) "type")
    with (Ok (Some (JStr "multiple_choice"))) by reflexivity.
  replace (get (Some (JObj [("id", id_json id); ("question", JStr text);
                            ("type", JStr "multiple_choice");
                            ("choices", JArr (map JStr (c :: cs)))])) "choices")
    with (Ok (Some (JArr (map JStr (c :: cs))))) by reflexivity.
  replace (get (Some (JObj [("id", id_json id); ("question", JStr text);
                            ("type", JStr "multiple_choice");
                            ("choices", JArr (map JStr (c :: cs)))])) "question")
    with (Ok (Some (JStr text))) by reflexivity.
  rewrite array_join_strings. reflexivity.
Qed.

Lemma key_encode (q : question) :
  get (Some (encode q)) "id" = Ok (Some (id_json (q_id q)))
  /\ template (Some (id_json (q_id q))) = Ok (key q).
Proof. destruct q as [[i|n] text ty [cs|]]; split; reflexivity. Qed.

(** The loop over well-formed questions runs to its end. *)
Lemma collect_encode (qs : list question) :
  forall answers w,
    AppFollowups.collect env (map encode qs) answers w
    = (Normal (file_answers env (length (prompts (trace w))) qs answers),
       {| vars := vars w;
          trace := trace w ++ map (fun q => Prompt (prompt_text q)) qs |}).
Proof.
  induction qs as [|q qs IH]; intros answers w; simpl.
  - now rewrite world_eta.
  - unfold bind at 1. rewrite ask_encode.
    destruct (key_encode q) as [-> Hk].
    unfold lift at 1, bind at 1, ret at 1.
    rewrite Hk. unfold lift at 1, bind at 1, ret at 1.
    rewrite IH. simpl.
    rewrite prompts_app, length_app, <- app_assoc. simpl.
    replace (length (prompts (trace w)) + 1)%nat
      with (S (length (prompts (trace w)))) by lia.
    reflexivity.
Qed.

End Typed.

(** ** The answers filed *)

Lemma lookup_assign (k v : string) (o : gmap string string) (k' : string) :
  assign k v o !! k'
  = if decide (k = k' /\ k <> "__proto__") then Some v else o !! k'.
Proof.
  unfold assign. destruct (String.eqb_spec k "__proto__") as [->|Hne].
  - destruct (decide _) as [[_ H]|_]; [contradiction|reflexivity].
  - destruct (decide _) as [[-> _]|Hd].
    + apply lookup_insert_eq.
    + apply lookup_insert_ne. intros ->. apply Hd. auto.
Qed.

Lemma size_assign (k v : string) (o : gmap string string) :
  (size (assign k v o) <= S (size o))%nat
  /\ (k <> "__proto__" -> o !! k = None -> size (assign k v o) = S (size o)).
Proof.
  unfold assign. destruct (String.eqb_spec k "__proto__") as [->|Hne].
  - split; [lia|contradiction].
  - rewrite map_size_insert. destruct (o !! k); simpl; split; auto; discriminate.
Qed.

Section Answers.

Variable env : environment.

(** Keys that no question has are left alone. *)
Lemma file_answers_other (qs : list question) :
  forall n a k,
    (forall q, In q qs -> key q <> k) ->
    file_answers env n qs a !! k = a !! k.
Proof.
  induction qs as [|q qs IH]; intros n a k Hk; simpl; [reflexivity|].
  rewrite IH by (intros q' Hq'; apply Hk; now right).
  rewrite lookup_assign. destruct (decide _) as [[Heq _]|_]; [|reflexivity].
  exfalso. apply (Hk q); [now left|exact Heq].
Qed.

(** Every entry was there before or is the answer to a question. *)
Lemma file_answers_lookup (qs : list question) :
  forall n a k v,
    file_answers env n qs a !! k = Some v ->
    a !! k = Some v
    \/ exists i q, qs !! i = Some q /\ key q = k
                   /\ v = filed_answer env (n + i) q.
Proof.
  induction qs as [|q qs IH]; intros n a k v H; simpl in H; [now left|].
  apply IH in H as [H|(i & q' & Hi & Hk & Hv)].
  - rewrite lookup_assign in H. destruct (decide _) as [[Heq _]|_]; [|now left].
    right. exists 0%nat, q. injection H as <-.
    rewrite Nat.add_0_r. auto.
  - right. exists (S i), q'. simpl. rewrite Nat.add_succ_r. auto.
Qed.

(** The entry of a key is the answer to the last question with it. *)
Lemma file_answers_last (qs : list question) :
  forall n a i q,
    qs !! i = Some q -> key q <> "__proto__" ->
    (forall j q', (i < j)%nat -> qs !! j = Some q' -> key q' <> key q) ->
    file_answers env n qs a !! key q = Some (filed_answer env (n + i) q).
Proof.
  induction qs as [|q0 qs IH]; intros n a i q Hi Hp Hlater; [discriminate|].
  destruct i as [|i]; simpl in Hi |- *.
  - injection Hi as ->. rewrite file_answers_other.
    + rewrite lookup_assign, Nat.add_0_r.
      destruct (decide _) as [_|Hd]; [reflexivity|]. exfalso. apply Hd. auto.
    + intros q' Hq'. apply list_elem_of_In, list_elem_of_lookup in Hq' as [j Hj].
      apply (Hlater (S j)); [lia|exact Hj].
  - rewrite (IH (S n) _ i q Hi Hp).
    + now rewrite Nat.add_succ_r.
    + intros j q' Hj Hq'. apply (Hlater (S j)); [lia|exact Hq'].
Qed.

Lemma file_answers_size_le (qs : list question) :
  forall n a, (size (file_answers env n qs a) <= size a + length qs)%nat.
Proof.
  induction qs as [|q qs IH]; intros n a; simpl; [lia|].
  specialize (IH (S n) (assign (key q) (filed_answer env n q) a)).
  destruct (size_assign (key q) (filed_answer env n q) a) as [Hle _]. lia.
Qed.

(** Questions with pairwise different keys give one entry each. *)
Lemma file_answers_size (qs : list question) :
  forall n a,
    NoDup (map key qs) -> ~ In "__proto__" (map key qs) ->
    (forall q, In q qs -> a !! key q = None) ->
    size (file_answers env n qs a) = (size a + length qs)%nat.
Proof.
  induction qs as [|q qs IH]; intros n a Hnd Hp Hfresh; simpl; [lia|].
  simpl in Hnd, Hp. apply NoDup_cons in Hnd as [Hq Hnd].
  rewrite IH.
  - destruct (size_assign (key q) (filed_answer env n q) a) as [_ ->]; [lia| |].
    + intros Heq. apply Hp. now left.
    + apply Hfresh. now left.
  - exact Hnd.
  - intros H. apply Hp. now right.
  - intros q' Hq'. rewrite lookup_assign.
    destruct (decide _) as [[Heq _]|_]; [|apply Hfresh; now right].
    exfalso. apply Hq. rewrite Heq. apply list_elem_of_In, in_map, Hq'.
Qed.

End Answers.

(** C5, as stated, fails: two questions with the same id are both asked,
    and the finalize request carries one entry. *)
Lemma followups_repeated_id_files_one_answer :
  let qs := [Sample.which; Sample.how_again] in
  let w := AppFollowups.submitForm (Sample.asking qs) "Billing" "late fee"
                                   Sample.user7 in
  length qs = 2%nat
  /\ prompts (trace w) = [Prompt (prompt_text Sample.which);
                          Prompt (prompt_text Sample.how_again)]
  /\ fetches (trace w)
     = [Fetch Text.ai_followups
              (TicketBody (Some 7) "Billing" (composed "Billing" "late fee"));
        Fetch Text.ai_finalize (FinalizeBody (Some 7) {["q1" := ""]})]
  /\ size ({["q1" := ""]} : gmap string string) <> length qs.
Proof.
  cbv zeta. split; [reflexivity|]. split; [vm_compute; reflexivity|].
  split; [vm_compute; reflexivity|]. vm_compute. discriminate.
Qed.

(** ** Accepted submissions run to the end *)

Section Accepted.

Variable env : environment.

(** [frontend/app.js]: an accepted ticket request with an object as
    payload. *)
Lemma submitted_app_js inquiry Description s r fs ms :
  ready s -> valid_form inquiry Description ->
  server env 0 Text.tickets
         (TicketBody (userId s) inquiry (composed inquiry Description)) = Responds r ->
  ok r = true -> payload r = inr (JObj fs) ->
  template (field "time_to_submit_ms" fs) = Ok ms ->
  submitted app_js env inquiry Description s.
Proof.
  intros [Hc Hu] (Hi1 & Hi2 & Hd) Hs Hok Hp Hms. unfold submitted.
  destruct s as [u c]; simpl in Hc, Hu, Hs; subst c.
  apply String.eqb_neq in Hi1, Hi2, Hd.
  unfold submitForm_try, AppJs.submitForm_try, start, composed in *.
  unfold_monad; simpl. rewrite Hu; simpl. rewrite Hi1, Hi2, Hd; simpl.
  rewrite Hs; simpl. rewrite Hp, Hok; simpl.
  unfold get. rewrite Hms. reflexivity.
Qed.

(** The follow-up version, no follow-up needed. *)
Lemma submitted_directly inquiry Description s r0 fs0 r fs ms :
  ready s -> valid_form inquiry Description ->
  let b := TicketBody (userId s) inquiry (composed inquiry Description) in
  server env 0 Text.ai_followups b = Responds r0 ->
  ok r0 = true -> payload r0 = inr (JObj fs0) ->
  truthy (field "needs_followup" fs0) = false ->
  server env 1 Text.tickets b = Responds r ->
  ok r = true -> payload r = inr (JObj fs) ->
  template (field "time_to_submit_ms" fs) = Ok ms ->
  submitted app_followups env inquiry Description s.
Proof.
  intros [Hc Hu] (Hi1 & Hi2 & Hd) b Hs0 Hok0 Hp0 Hn Hs Hok Hp Hms. subst b.
  unfold submitted.
  destruct s as [u c]; simpl in Hc, Hu, Hs0, Hs; subst c.
  apply String.eqb_neq in Hi1, Hi2, Hd.
  unfold submitForm_try, AppFollowups.submitForm_try, start, composed in *.
  unfold_monad; simpl. rewrite Hu; simpl. rewrite Hi1, Hi2, Hd; simpl.
  rewrite Hs0; simpl. rewrite Hp0, Hok0; simpl.
  unfold get at 1. rewrite Hn; simpl.
  rewrite Hs; simpl. rewrite Hp, Hok; simpl.
  unfold get. rewrite Hms. reflexivity.
Qed.

(** The follow-up version, with well-formed questions and an accepted
    finalize request. *)
Lemma submitted_by_finalize inquiry Description s r0 fs0 qs r fs ms table :
  ready s -> valid_form inquiry Description ->
  server env 0 Text.ai_followups
         (TicketBody (userId s) inquiry (composed inquiry Description)) = Responds r0 ->
  ok r0 = true -> payload r0 = inr (JObj fs0) ->
  truthy (field "needs_followup" fs0) = true ->
  field "questions" fs0 = Some (JArr (map encode qs)) ->
  server env 1 Text.ai_finalize
         (FinalizeBody (userId s) (file_answers env 0 qs ∅)) = Responds r ->
  ok r = true -> payload r = inr (JObj fs) ->
  template (field "time_to_submit_ms" fs) = Ok ms ->
  template (field "log_table" fs) = Ok table ->
  submitted app_followups env inquiry Description s.
Proof.
  intros [Hc Hu] (Hi1 & Hi2 & Hd) Hs0 Hok0 Hp0 Hn Hq Hs Hok Hp Hms Htab.
  unfold submitted.
  destruct s as [u c]; simpl in Hc, Hu, Hs0, Hs; subst c.
  apply String.eqb_neq in Hi1, Hi2, Hd.
  unfold submitForm_try, AppFollowups.submitForm_try, start, composed in *.
  unfold_monad; simpl. rewrite Hu; simpl. rewrite Hi1, Hi2, Hd; simpl.
  rewrite Hs0; simpl. rewrite Hp0, Hok0; simpl.
  unfold get at 1. rewrite Hn; simpl.
  unfold get at 1. rewrite Hq. unfold iterate. rewrite collect_encode. simpl.
  rewrite <- (map_map prompt_text Prompt), fetches_prompts. simpl.
  rewrite Hs; simpl. rewrite Hp, Hok; simpl.
  unfold get. rewrite Hms, Htab. reflexivity.
Qed.

End Accepted.

(** * Further properties *)

(** ** The identity parser: case, padding, printing *)

Lemma white_space_lower (c : ascii) :
  is_white_space (lower_unit c) = is_white_space c.
Proof. destruct c as [[] [] [] [] [] [] [] []]; reflexivity. Qed.

Lemma lower_unit_idempotent (c : ascii) : lower_unit (lower_unit c) = lower_unit c.
Proof. destruct c as [[] [] [] [] [] [] [] []]; reflexivity. Qed.

Lemma toLowerCase_idempotent (s : string) :
  toLowerCase (toLowerCase s) = toLowerCase s.
Proof.
  induction s as [|c s IH]; simpl; [reflexivity|].
  now rewrite lower_unit_idempotent, IH.
Qed.

Lemma trimStart_lower (s : string) :
  trimStart (toLowerCase s) = toLowerCase (trimStart s).
Proof.
  induction s as [|c s IH]; simpl; [reflexivity|].
  rewrite white_space_lower. destruct (is_white_space c); [exact IH|reflexivity].
Qed.

Lemma trimEnd_lower (s : string) :
  trimEnd (toLowerCase s) = toLowerCase (trimEnd s).
Proof.
  induction s as [|c s IH]; simpl; [reflexivity|].
  rewrite IH, white_space_lower.
  destruct (trimEnd s); simpl; [|reflexivity].
  destruct (is_white_space c); reflexivity.
Qed.

Lemma trim_lower (s : string) : trim (toLowerCase s) = toLowerCase (trim s).
Proof. unfold trim. now rewrite trimStart_lower, trimEnd_lower. Qed.

Lemma trimEnd_blank (ws : string) : blank ws = true -> trimEnd ws = EmptyString.
Proof.
  induction ws as [|c ws IH]; simpl; [reflexivity|].
  intros [Hc Hws]%andb_true_iff. now rewrite (IH Hws), Hc.
Qed.

Lemma trimStart_blank (ws s : string) :
  blank ws = true -> trimStart (ws +:+ s) = trimStart s.
Proof.
  induction ws as [|c ws IH]; rewrite ?append_nil, ?append_cons; simpl;
    [reflexivity|].
  intros [Hc Hws]%andb_true_iff. rewrite Hc. auto.
Qed.

Lemma trimEnd_app_blank (s ws : string) :
  blank ws = true -> trimEnd (s +:+ ws) = trimEnd s.
Proof.
  intros Hws. induction s as [|c s IH]; rewrite ?append_nil, ?append_cons; simpl.
  - now apply trimEnd_blank.
  - now rewrite IH.
Qed.

Lemma trim_app_blank (s ws : string) :
  blank ws = true -> trim (s +:+ ws) = trim s.
Proof.
  intros Hws. unfold trim.
  induction s as [|c s IH]; rewrite ?append_nil, ?append_cons; simpl.
  - replace (trimStart ws) with EmptyString; [reflexivity|].
    clear -Hws. induction ws as [|c ws IH]; simpl in *; [reflexivity|].
    apply andb_true_iff in Hws as [-> Hws]. auto.
  - destruct (is_white_space c); [exact IH|].
    rewrite <- append_cons. now apply trimEnd_app_blank.
Qed.

(** X1. Letter case and surrounding white space do not matter to
    [parseUserId]: padding a username with white space on either side, or
    replacing it by a string with the same lower-case form, gives the same
    result. *)
Theorem parseUserId_ignores_case_and_padding (ws1 ws2 s t : string) :
  blank ws1 = true -> blank ws2 = true -> toLowerCase s = toLowerCase t ->
  parseUserId (ws1 +:+ s +:+ ws2) = parseUserId t.
Proof.
  intros H1 H2 Hst. unfold parseUserId.
  replace (toLowerCase (trim (ws1 +:+ s +:+ ws2))) with (toLowerCase (trim t));
    [reflexivity|].
  assert (Hpad : trim (ws1 +:+ s +:+ ws2) = trim s).
  { unfold trim at 1. rewrite trimStart_blank by exact H1.
    now apply trim_app_blank. }
  rewrite Hpad, <- !trim_lower. now rewrite Hst.
Qed.

Lemma parseUserId_ignores_case_and_padding_witness :
  blank "  " = true /\ blank (String "009"%char EmptyString) = true
  /\ toLowerCase "USER42" = toLowerCase "User42"
  /\ parseUserId ("  " +:+ "USER42" +:+ String "009"%char EmptyString)
     = parseUserId "User42".
Proof.
  do 3 (split; [reflexivity|]).
  exact (parseUserId_ignores_case_and_padding
           "  " (String "009"%char EmptyString) "USER42" "User42"
           eq_refl eq_refl eq_refl).
Defined.

Lemma print_parse_nat (k : nat) :
  (1 <= k <= 99)%nat ->
  parseUserId ("user" +:+ string_of_Z (Z.of_nat k)) = Some (Z.of_nat k).
Proof.
  intros Hk.
  assert (Hall : forallb (fun k => bool_decide
                    (parseUserId ("user" +:+ string_of_Z (Z.of_nat k))
                     = Some (Z.of_nat k))) (seq 1 99) = true)
    by (vm_compute; reflexivity).
  rewrite forallb_forall in Hall.
  eapply bool_decide_eq_true_1, Hall, in_seq. lia.
Qed.

(** Printing an id in [1,99] after [user] and parsing the result gives the
    id back. *)
Lemma print_parse (n : Z) :
  1 <= n <= 99 -> parseUserId ("user" +:+ string_of_Z n) = Some n.
Proof.
  intros Hn. rewrite <- (Z2Nat.id n) by lia. apply print_parse_nat. lia.
Qed.

(** ** The runs of [confirmUser] *)

(** An accepted draft-start request: what the run leaves and does. *)
Lemma confirm_accepted v env username tableChoice s id r data :
  parseUserId username = Some id ->
  server env 0 Text.draft_start (draft_body v (Some id) tableChoice) = Responds r ->
  ok r = true -> payload r = inr data ->
  confirmUser v env username tableChoice s
  = {| vars := {| userId := Some id; confirmed := true |};
       trace := [Fetch Text.draft_start (draft_body v (Some id) tableChoice);
                 StatusText ("Bekreftet: user" +:+ string_of_Z id +:+ ". Timer startet.");
                 StatusColor "green";
                 SubmitDisabled false;
                 ConsoleLog "Draft started for user_id:" [Some (JNum id); Some data]] |}.
Proof.
  intros Hid Hs Hok Hp. pose proof (parsed_id_truthy _ _ Hid) as Ht.
  destruct v; unfold confirmUser, AppJs.confirmUser, AppFollowups.confirmUser,
    AppJs.confirmUser_body, AppFollowups.confirmUser_body,
    AppJs.confirmUser_try, AppFollowups.confirmUser_try, draft_body in *;
    rewrite Hid, Ht; unfold_monad; simpl; rewrite Hs; simpl;
    rewrite Hp, Hok; reflexivity.
Qed.

(** The three runs of [confirmUser]: username refused, request failed,
    request accepted. *)
Lemma confirm_shapes v env username tableChoice s :
  let w := confirmUser v env username tableChoice s in
  (parseUserId username = None
   /\ w = {| vars := s;
             trace := [StatusText Text.invalid_username; StatusColor "red"] |})
  \/ (exists id e,
        parseUserId username = Some id
        /\ draft_fails (server env 0 Text.draft_start
                               (draft_body v (Some id) tableChoice))
        /\ w = {| vars := s;
                  trace := [Fetch Text.draft_start (draft_body v (Some id) tableChoice);
                            ConsoleError e;
                            StatusText (Text.timer_failed +:+ message e);
                            StatusColor "red"] |})
  \/ (exists id r data,
        parseUserId username = Some id
        /\ server env 0 Text.draft_start (draft_body v (Some id) tableChoice)
           = Responds r
        /\ ok r = true /\ payload r = inr data
        /\ w = {| vars := {| userId := Some id; confirmed := true |};
                  trace := [Fetch Text.draft_start (draft_body v (Some id) tableChoice);
                            StatusText ("Bekreftet: user" +:+ string_of_Z id
                                        +:+ ". Timer startet.");
                            StatusColor "green";
                            SubmitDisabled false;
                            ConsoleLog "Draft started for user_id:"
                                       [Some (JNum id); Some data]] |}).
Proof.
  cbv zeta. destruct (parseUserId username) as [id|] eqn:Hid.
  2:{ left. split; [reflexivity|]. now apply confirm_invalid. }
  right.
  assert (Hfail : draft_fails (server env 0 Text.draft_start
                                      (draft_body v (Some id) tableChoice)) ->
          exists id0 e,
            Some id = Some id0
            /\ draft_fails (server env 0 Text.draft_start
                                   (draft_body v (Some id0) tableChoice))
            /\ confirmUser v env username tableChoice s
               = {| vars := s;
                    trace := [Fetch Text.draft_start
                                    (draft_body v (Some id0) tableChoice);
                              ConsoleError e;
                              StatusText (Text.timer_failed +:+ message e);
                              StatusColor "red"] |}).
  { intros Hf. destruct (confirm_failure v env username tableChoice s id Hid Hf)
      as [e He]. exists id, e. auto. }
  destruct (server env 0 Text.draft_start (draft_body v (Some id) tableChoice))
    as [reason|r] eqn:Hs.
  { left. apply Hfail. exact I. }
  destruct (ok r) eqn:Hok.
  2:{ left. apply Hfail. now left. }
  destruct (payload r) as [reason|data] eqn:Hp.
  { left. apply Hfail. right. eauto. }
  right. exists id, r, data. repeat split; auto.
  eapply confirm_accepted; eauto.
Qed.

(** X2. After an accepted draft-start request the status line names the
    user in canonical form, [user] followed by the decimal id without
    padding or capitals, and that name parses back to the id held in
    [userId]. *)
Theorem confirm_shows_canonical_name v env username tableChoice s id r data :
  parseUserId username = Some id ->
  server env 0 Text.draft_start (draft_body v (Some id) tableChoice) = Responds r ->
  ok r = true -> payload r = inr data ->
  let w := confirmUser v env username tableChoice s in
  let name := "user" +:+ string_of_Z id in
  status_texts (trace w) = [StatusText ("Bekreftet: " +:+ name +:+ ". Timer startet.")]
  /\ parseUserId name = userId (vars w).
Proof.
  intros Hid Hs Hok Hp. cbv zeta.
  rewrite (confirm_accepted v env username tableChoice s id r data Hid Hs Hok Hp).
  split; [reflexivity|]. simpl. apply print_parse.
  eapply parseUserId_range; eauto.
Qed.

Lemma confirm_shows_canonical_name_witness :
  parseUserId " USER07 " = Some 7
  /\ server Sample.plain 0 Text.draft_start
            (draft_body app_followups (Some 7) (JNum 3))
     = Sample.accepted (JObj [("needs_followup", JBool false);
                              ("time_to_submit_ms", JNum 12)])
  /\ (let w := confirmUser app_followups Sample.plain " USER07 " (JNum 3) initial in
      let name := "user" +:+ string_of_Z 7 in
      status_texts (trace w)
      = [StatusText ("Bekreftet: " +:+ name +:+ ". Timer startet.")]
      /\ parseUserId name = userId (vars w)).
Proof.
  do 2 (split; [reflexivity|]).
  exact (confirm_shows_canonical_name app_followups Sample.plain " USER07 "
           (JNum 3) initial 7 _ _ eq_refl eq_refl eq_refl eq_refl).
Defined.

(** X3. [confirmUser] sends a request exactly when the username parses:
    then one request, to the draft-start endpoint, carrying the parsed id
    (and in the follow-up version the table number); otherwise none. It
    never prompts and never alerts, and sets the status line once. *)
Theorem confirm_requests_iff_username_valid v env username tableChoice s :
  let w := confirmUser v env username tableChoice s in
  fetches (trace w)
  = match parseUserId username with
    | Some id => [Fetch Text.draft_start (draft_body v (Some id) tableChoice)]
    | None => []
    end
  /\ prompts (trace w) = [] /\ alerts (trace w) = []
  /\ length (status_texts (trace w)) = 1%nat.
Proof.
  destruct (confirm_shapes v env username tableChoice s)
    as [[Hid ->]|[(id & e & Hid & _ & ->)|(id & r & data & Hid & _ & _ & _ & ->)]];
    rewrite Hid; repeat split; reflexivity.
Qed.

(** X4. When the draft-start request is refused, the status line shows
    [Kunne ikke starte timer: ] followed by the [error] member of the
    response if that is a non-empty string, and by [Failed to start draft]
    if the response has no [error] member or a falsy one; when the network
    fails, by the reason of the failure. The line is red, the submit
    button is not touched and the session is kept. *)
Theorem confirm_failure_message v env username tableChoice s id :
  parseUserId username = Some id ->
  let request := server env 0 Text.draft_start (draft_body v (Some id) tableChoice) in
  let w := confirmUser v env username tableChoice s in
  let failed (e : exn) : world :=
    {| vars := s;
       trace := [Fetch Text.draft_start (draft_body v (Some id) tableChoice);
                 ConsoleError e;
                 StatusText (Text.timer_failed +:+ message e);
                 StatusColor "red"] |} in
  (forall r fs msg,
      request = Responds r -> ok r = false -> payload r = inr (JObj fs) ->
      field "error" fs = Some (JStr msg) -> msg <> "" ->
      w = failed (Error msg))
  /\ (forall r fs,
         request = Responds r -> ok r = false -> payload r = inr (JObj fs) ->
         truthy (field "error" fs) = false ->
         w = failed (Error "Failed to start draft"))
  /\ (forall reason,
         request = NetworkFailure reason -> w = failed (Rejection reason)).
Proof.
  intros Hid. cbv zeta. pose proof (parsed_id_truthy _ _ Hid) as Ht.
  split; [|split].
  - intros r fs msg Hs Hok Hp Hf Hm. apply String.eqb_neq in Hm.
    destruct v; unfold confirmUser, AppJs.confirmUser, AppFollowups.confirmUser,
      AppJs.confirmUser_body, AppFollowups.confirmUser_body,
      AppJs.confirmUser_try, AppFollowups.confirmUser_try,
      AppJs.confirmUser_catch, AppFollowups.confirmUser_catch, draft_body in *;
      rewrite Hid, Ht; unfold_monad; simpl; rewrite Hs; simpl;
      rewrite Hp, Hok; simpl; unfold get, truthy, template; rewrite Hf; simpl;
      rewrite Hm; reflexivity.
  - intros r fs Hs Hok Hp Hf.
    destruct v; unfold confirmUser, AppJs.confirmUser, AppFollowups.confirmUser,
      AppJs.confirmUser_body, AppFollowups.confirmUser_body,
      AppJs.confirmUser_try, AppFollowups.confirmUser_try,
      AppJs.confirmUser_catch, AppFollowups.confirmUser_catch, draft_body in *;
      rewrite Hid, Ht; unfold_monad; simpl; rewrite Hs; simpl;
      rewrite Hp, Hok; simpl; unfold get; rewrite Hf; reflexivity.
  - intros reason Hs.
    destruct v; unfold confirmUser, AppJs.confirmUser, AppFollowups.confirmUser,
      AppJs.confirmUser_body, AppFollowups.confirmUser_body,
      AppJs.confirmUser_try, AppFollowups.confirmUser_try,
      AppJs.confirmUser_catch, AppFollowups.confirmUser_catch, draft_body in *;
      rewrite Hid, Ht; unfold_monad; simpl; rewrite Hs; reflexivity.
Qed.

Lemma confirm_failure_message_witness :
  parseUserId "user7" = Some 7
  /\ (let request := server Sample.offline 0 Text.draft_start
                            (draft_body app_js (Some 7) JNull) in
      let w := confirmUser app_js Sample.offline "user7" JNull initial in
      let failed (e : exn) : world :=
        {| vars := initial;
           trace := [Fetch Text.draft_start (draft_body app_js (Some 7) JNull);
                     ConsoleError e;
                     StatusText (Text.timer_failed +:+ message e);
                     StatusColor "red"] |} in
      (forall r fs msg,
          request = Responds r -> ok r = false -> payload r = inr (JObj fs) ->
          field "error" fs = Some (JStr msg) -> msg <> "" ->
          w = failed (Error msg))
      /\ (forall r fs,
             request = Responds r -> ok r = false -> payload r = inr (JObj fs) ->
             truthy (field "error" fs) = false ->
             w = failed (Error "Failed to start draft"))
      /\ (forall reason,
             request = NetworkFailure reason -> w = failed (Rejection reason))).
Proof.
  split; [reflexivity|].
  exact (confirm_failure_message app_js Sample.offline "user7" JNull initial 7 eq_refl).
Defined.

(** ** The runs of [submitForm] *)

Lemma in_prompts (e : event) (texts : list string) :
  In e (map Prompt texts) -> is_prompt e = true.
Proof. intros (t & <- & _)%in_map_iff. reflexivity. Qed.

Lemma alerts_prompts (texts : list string) : alerts (map Prompt texts) = [].
Proof. induction texts; simpl; auto. Qed.

Lemma alerts_app (tr1 tr2 : list event) :
  alerts (tr1 ++ tr2) = (alerts tr1 ++ alerts tr2)%list.
Proof. unfold alerts. apply List.filter_app. Qed.

(** X5. The submit button follows the session: [confirmUser] enables it in
    the runs that confirm, [submitForm] disables it in the runs that reset,
    and a run of either that does not touch the button leaves the session
    as it was. *)
Theorem button_follows_session v env s :
  (forall username tableChoice,
      let w := confirmUser v env username tableChoice s in
      (forall b, In (SubmitDisabled b) (trace w) ->
                 b = false /\ confirmed (vars w) = true)
      /\ ((forall b, ~ In (SubmitDisabled b) (trace w)) -> vars w = s))
  /\ (forall inquiry Description,
         let w := submitForm v env inquiry Description s in
         (forall b, In (SubmitDisabled b) (trace w) ->
                    b = true /\ vars w = initial)
         /\ ((forall b, ~ In (SubmitDisabled b) (trace w)) -> vars w = s)).
Proof.
  split.
  - intros username tableChoice. cbv zeta.
    destruct (confirm_shapes v env username tableChoice s)
      as [[_ ->]|[(id & e & _ & _ & ->)|(id & r & data & _ & _ & _ & _ & ->)]];
      simpl; split; try reflexivity;
      try (intros b H; intuition (try discriminate; congruence)).
    intros H. exfalso. apply (H false). auto.
  - intros inquiry Description. cbv zeta. rewrite submitForm_of_try.
    destruct (ready_or_rejected s inquiry Description) as [[Hr Hv]|Hrej].
    + destruct v; simpl.
      * destruct (direct_cases env inquiry Description s Hr Hv); simpl;
          split; try reflexivity;
          try (intros b H; intuition (try discriminate; congruence)).
        intros H. exfalso. apply (H true). auto.
      * destruct (followups_cases env inquiry Description s Hr Hv); simpl;
          rewrite <- ?app_assoc; simpl; split; try reflexivity;
          try (intros b H; rewrite ?in_app_iff in H; simpl in H;
               intuition (try discriminate; try congruence);
               match goal with
               | Hin : In _ (map Prompt _) |- _ =>
                   apply in_prompts in Hin; discriminate
               end).
        -- intros H. exfalso. apply (H true). auto.
        -- intros H. exfalso. apply (H true).
           right. apply in_app_iff. right. simpl. auto.
    + destruct (rejected_run v env _ _ _ Hrej) as [msg ->]. simpl.
      split; [|reflexivity]. intros b [H|[]]. discriminate.
Qed.

(** X6. The alert of a rejected submission names the first check that
    fails: without a confirmed user the request to confirm, whatever the
    form holds; otherwise, with the inquiry empty or left at the
    placeholder, the request to choose it, whatever the description;
    otherwise the request to write a description. *)
Theorem submit_alert_names_first_failed_check v env inquiry Description s :
  let w := submitForm v env inquiry Description s in
  (confirmed s = false \/ truthy_id (userId s) = false ->
   w = {| vars := s; trace := [Alert Text.confirm_first] |})
  /\ (ready s -> inquiry = "" \/ inquiry = Text.placeholder ->
      w = {| vars := s; trace := [Alert Text.choose_inquiry] |})
  /\ (ready s -> inquiry <> "" -> inquiry <> Text.placeholder ->
      trim Description = "" ->
      w = {| vars := s; trace := [Alert Text.write_description] |}).
Proof.
  cbv zeta. destruct s as [u c]. split; [|split].
  - intros H.
    destruct v; unfold submitForm, AppJs.submitForm, AppFollowups.submitForm,
      AppJs.submitForm_body, AppFollowups.submitForm_body,
      AppJs.submitForm_try, AppFollowups.submitForm_try; unfold_monad; simpl in *;
      destruct H as [-> | ->]; simpl; rewrite ?orb_true_r; reflexivity.
  - intros [Hc Hu] Hi. simpl in Hc, Hu. subst c.
    assert (Hb : String.eqb inquiry "" || String.eqb inquiry Text.placeholder = true).
    { destruct Hi as [-> | ->]; [reflexivity|].
      rewrite String.eqb_refl. apply orb_true_r. }
    destruct v; unfold submitForm, AppJs.submitForm, AppFollowups.submitForm,
      AppJs.submitForm_body, AppFollowups.submitForm_body,
      AppJs.submitForm_try, AppFollowups.submitForm_try; unfold_monad; simpl;
      rewrite Hu; simpl; rewrite Hb; reflexivity.
  - intros [Hc Hu] Hi1 Hi2 Hd. simpl in Hc, Hu. subst c.
    apply String.eqb_neq in Hi1, Hi2.
    destruct v; unfold submitForm, AppJs.submitForm, AppFollowups.submitForm,
      AppJs.submitForm_body, AppFollowups.submitForm_body,
      AppJs.submitForm_try, AppFollowups.submitForm_try; unfold_monad; simpl;
      rewrite Hu; simpl; rewrite Hi1, Hi2, Hd; reflexivity.
Qed.

(** X7. Confirmation and submission compose: after [confirmUser] has had
    its draft-start request accepted for a username, every request of
    every later [submitForm] carries the id parsed from that username. *)
Theorem submit_carries_confirmed_id
    v envC username tableChoice s0 id r data :
  parseUserId username = Some id ->
  server envC 0 Text.draft_start (draft_body v (Some id) tableChoice) = Responds r ->
  ok r = true -> payload r = inr data ->
  let s1 := vars (confirmUser v envC username tableChoice s0) in
  forall envS inquiry Description url b,
    In (Fetch url b) (trace (submitForm v envS inquiry Description s1)) ->
    body_user_id b = Some id.
Proof.
  intros Hid Hs Hok Hp. cbv zeta.
  rewrite (confirm_accepted v envC username tableChoice s0 id r data Hid Hs Hok Hp).
  simpl. intros envS inquiry Description url b.
  set (s1 := {| userId := Some id; confirmed := true |}).
  rewrite submitForm_of_try.
  destruct (ready_or_rejected s1 inquiry Description) as [[Hr Hv]|Hrej].
  - destruct v; simpl.
    + destruct (direct_cases envS inquiry Description s1 Hr Hv); simpl;
        intuition (try discriminate);
        match goal with H : _ = Fetch _ _ |- _ => injection H as _ <- end;
        reflexivity.
    + destruct (followups_cases envS inquiry Description s1 Hr Hv); simpl;
        rewrite <- ?app_assoc, ?in_app_iff; simpl;
        intuition (try discriminate);
        try match goal with
            | Hin : In _ (map Prompt _) |- _ => apply in_prompts in Hin; discriminate
            end;
        match goal with H : _ = Fetch _ _ |- _ => injection H as _ <- end;
        reflexivity.
  - destruct (rejected_run v envS _ _ _ Hrej) as [msg ->]. simpl.
    intros [H|[]]. discriminate.
Qed.

Lemma submit_carries_confirmed_id_witness :
  parseUserId "user7" = Some 7
  /\ server Sample.plain 0 Text.draft_start
            (draft_body app_followups (Some 7) (JNum 3))
     = Sample.accepted (JObj [("needs_followup", JBool false);
                              ("time_to_submit_ms", JNum 12)])
  /\ (let s1 := vars (confirmUser app_followups Sample.plain "user7" (JNum 3) initial) in
      forall envS inquiry Description url b,
        In (Fetch url b) (trace (submitForm app_followups envS inquiry Description s1)) ->
        body_user_id b = Some 7).
Proof.
  do 2 (split; [reflexivity|]).
  exact (submit_carries_confirmed_id app_followups Sample.plain "user7" (JNum 3)
           initial 7 _ _ eq_refl eq_refl eq_refl eq_refl).
Defined.

(** X8. When the first request of a submission is refused, the alert shows
    [Noe gikk galt: ] followed by the [error] member of the response if
    that is a non-empty string, and by the fallback of the endpoint
    ([Failed followups], in [frontend/app.js] [Failed to submit ticket])
    if the response has no [error] member or a falsy one; no further
    request is sent and the session stays confirmed. *)
Theorem submit_refusal_message v env inquiry Description s r fs :
  ready s -> valid_form inquiry Description ->
  let b := TicketBody (userId s) inquiry (composed inquiry Description) in
  server env 0 (first_endpoint v) b = Responds r ->
  ok r = false -> payload r = inr (JObj fs) ->
  let w := submitForm v env inquiry Description s in
  let failed (e : exn) : world :=
    {| vars := s;
       trace := [Fetch (first_endpoint v) b; ConsoleError e;
                 Alert (Text.went_wrong +:+ message e)] |} in
  (forall msg, field "error" fs = Some (JStr msg) -> msg <> "" ->
               w = failed (Error msg))
  /\ (truthy (field "error" fs) = false -> w = failed (Error (first_fallback v))).
Proof.
  intros [Hc Hu] (Hi1 & Hi2 & Hd) b Hs Hok Hp. subst b. cbv zeta.
  destruct s as [u c]; simpl in Hc, Hu, Hs; subst c.
  apply String.eqb_neq in Hi1, Hi2, Hd.
  split.
  - intros msg Hf Hm. apply String.eqb_neq in Hm.
    destruct v; unfold submitForm, AppJs.submitForm, AppFollowups.submitForm,
      AppJs.submitForm_body, AppFollowups.submitForm_body,
      AppJs.submitForm_try, AppFollowups.submitForm_try,
      AppJs.submitForm_catch, AppFollowups.submitForm_catch,
      first_endpoint, composed in *;
      unfold_monad; simpl; rewrite Hu; simpl; rewrite Hi1, Hi2, Hd; simpl;
      rewrite Hs; simpl; rewrite Hp, Hok; simpl;
      unfold get, truthy, template; rewrite Hf; simpl; rewrite Hm; reflexivity.
  - intros Hf.
    destruct v; unfold submitForm, AppJs.submitForm, AppFollowups.submitForm,
      AppJs.submitForm_body, AppFollowups.submitForm_body,
      AppJs.submitForm_try, AppFollowups.submitForm_try,
      AppJs.submitForm_catch, AppFollowups.submitForm_catch,
      first_endpoint, composed in *;
      unfold_monad; simpl; rewrite Hu; simpl; rewrite Hi1, Hi2, Hd; simpl;
      rewrite Hs; simpl; rewrite Hp, Hok; simpl;
      unfold get; rewrite Hf; reflexivity.
Qed.

(** ** Requests and alerts of a submission *)

Lemma no_request_iff_rejected v env inquiry Description s :
  urls (trace (submitForm v env inquiry Description s)) = []
  <-> rejected s inquiry Description.
Proof.
  rewrite submitForm_of_try.
  destruct (ready_or_rejected s inquiry Description) as [[Hr Hv]|Hrej].
  - assert (Hnot : ~ rejected s inquiry Description)
      by (intros H; eapply rejected_not_ready; eauto).
    destruct v; simpl.
    + destruct (direct_cases env inquiry Description s Hr Hv); simpl;
        (split; [discriminate|contradiction]).
    + destruct (followups_cases env inquiry Description s Hr Hv); simpl;
        (split; [discriminate|contradiction]).
  - destruct (rejected_run v env _ _ _ Hrej) as [msg ->]. simpl. split; auto.
Qed.

(** X9. Whatever the session, the form and the backend, [submitForm]
    requests nothing exactly when one of its checks fails; otherwise the
    follow-up version requests the determination first and then at most
    one of ticket creation and finalization, never both, and
    [frontend/app.js] requests ticket creation alone. *)
Theorem submit_request_sequences v env inquiry Description s :
  let us := urls (trace (submitForm v env inquiry Description s)) in
  match v with
  | app_js => us = [] \/ us = [Text.tickets]
  | app_followups =>
      us = [] \/ us = [Text.ai_followups]
      \/ us = [Text.ai_followups; Text.tickets]
      \/ us = [Text.ai_followups; Text.ai_finalize]
  end
  /\ (us = [] <-> rejected s inquiry Description).
Proof.
  cbv zeta. split; [|apply no_request_iff_rejected].
  rewrite submitForm_of_try.
  destruct (ready_or_rejected s inquiry Description) as [[Hr Hv]|Hrej].
  - destruct v; simpl.
    + destruct (direct_cases env inquiry Description s Hr Hv); simpl; auto.
    + destruct (followups_cases env inquiry Description s Hr Hv); simpl;
        rewrite <- ?app_assoc, ?urls_app, ?urls_prompts; simpl; auto 6.
  - destruct (rejected_run v env _ _ _ Hrej) as [msg ->]. simpl.
    destruct v; auto.
Qed.

(** X10. Every call of [submitForm] shows exactly one alert: the message
    of the failed check, the notice of success, or the notice of
    failure. *)
Theorem submit_alerts_once v env inquiry Description s :
  length (alerts (trace (submitForm v env inquiry Description s))) = 1%nat.
Proof.
  rewrite submitForm_of_try.
  destruct (ready_or_rejected s inquiry Description) as [[Hr Hv]|Hrej].
  - destruct v; simpl.
    + destruct (direct_cases env inquiry Description s Hr Hv); reflexivity.
    + destruct (followups_cases env inquiry Description s Hr Hv); simpl;
        rewrite <- ?app_assoc, ?alerts_app, ?alerts_prompts; reflexivity.
  - destruct (rejected_run v env _ _ _ Hrej) as [msg ->]. reflexivity.
Qed.

(** X11. The two versions agree where no follow-up is needed: if the
    determination is accepted with [needs_followup] falsy and the ticket
    request gets the answer that [frontend/app.js] gets for it, the
    follow-up version leaves the same session and has sent the same ticket
    request, after the determination. *)
Theorem versions_agree_without_followup
    envF envJ inquiry Description s followRes followData needs :
  ready s -> valid_form inquiry Description ->
  let b := TicketBody (userId s) inquiry (composed inquiry Description) in
  server envF 0 Text.ai_followups b = Responds followRes ->
  ok followRes = true -> payload followRes = inr followData ->
  get (Some followData) "needs_followup" = Ok needs -> truthy needs = false ->
  server envF 1 Text.tickets b = server envJ 0 Text.tickets b ->
  let wF := submitForm app_followups envF inquiry Description s in
  let wJ := submitForm app_js envJ inquiry Description s in
  vars wF = vars wJ
  /\ fetches (trace wF) = Fetch Text.ai_followups b :: fetches (trace wJ)
  /\ fetches (trace wJ) = [Fetch Text.tickets b].
Proof.
  intros [Hc Hu] (Hi1 & Hi2 & Hd) b Hs Hok Hp Hg Hn Hsame. subst b. cbv zeta.
  destruct s as [u c]; simpl in Hc, Hu, Hs, Hsame; subst c.
  apply String.eqb_neq in Hi1, Hi2, Hd.
  unfold submitForm, AppFollowups.submitForm, AppFollowups.submitForm_body,
    AppFollowups.submitForm_try, AppFollowups.submitForm_catch,
    AppJs.submitForm, AppJs.submitForm_body,
    AppJs.submitForm_try, AppJs.submitForm_catch, composed in *.
  unfold_monad; simpl. rewrite Hu; simpl. rewrite Hi1, Hi2, Hd; simpl.
  rewrite Hs; simpl. rewrite Hp, Hok; simpl. rewrite Hg, Hn; simpl.
  rewrite Hsame.
  crunch; auto.
Qed.

(** ** Follow-up questions of any shape *)

Section Questions.

Variable env : environment.

(** After the determination has asked for follow-up, the [try] block goes
    on as the loop over the questions does. *)
Lemma followups_after_questions inquiry Description s followRes followData
    needs questions qs :
  ready s -> valid_form inquiry Description ->
  let b := TicketBody (userId s) inquiry (composed inquiry Description) in
  server env 0 Text.ai_followups b = Responds followRes ->
  ok followRes = true -> payload followRes = inr followData ->
  get (Some followData) "needs_followup" = Ok needs -> truthy needs = true ->
  get (Some followData) "questions" = Ok questions -> iterate questions = Ok qs ->
  let r := AppFollowups.submitForm_try env inquiry Description (start s) in
  match AppFollowups.collect env qs ∅
          {| vars := s; trace := [Fetch Text.ai_followups b] |} with
  | (Throw e, w2) => r = (Throw e, w2)
  | (Return, _) => False
  | (Normal answers, w2) =>
      let sent :=
        (trace w2 ++ [Fetch Text.ai_finalize (FinalizeBody (userId s) answers)])%list in
      (exists e, r = (Throw e, {| vars := s; trace := sent |}))
      \/ (exists msg final,
            r = (Normal tt,
                 {| vars := initial;
                    trace := (sent ++ [Alert msg; ConsoleLog "AI final:" [final];
                                       SubmitDisabled true;
                                       StatusText Text.reconfirm])%list |}))
  end.
Proof.
  intros [Hc Hu] (Hi1 & Hi2 & Hd) b Hs Hok Hp Hg Hn Hq Hit. subst b. cbv zeta.
  destruct s as [u c]; simpl in Hc, Hu, Hs; subst c.
  apply String.eqb_neq in Hi1, Hi2, Hd.
  unfold AppFollowups.submitForm_try, composed, start in *.
  unfold_monad; simpl. rewrite Hu; simpl. rewrite Hi1, Hi2, Hd; simpl.
  rewrite Hs; simpl. rewrite Hp, Hok; simpl. rewrite Hg, Hn; simpl.
  rewrite Hq, Hit.
  match goal with
  | |- context [AppFollowups.collect env qs ?a ?w'] =>
      destruct (collect_run env qs a w') as (c' & texts & Hcol & Hc' & _);
      rewrite Hcol
  end.
  destruct c' as [answers| |e]; [|done|reflexivity].
  simpl.
  match goal with
  | |- context [match server env ?n ?url ?bd with _ => _ end] =>
      destruct (server env n url bd) as [reason|finRes]
  end; [left; eexists; reflexivity|].
  destruct (payload finRes) as [reason|finData]; [left; eexists; reflexivity|].
  destruct (ok finRes); simpl.
  2:{ crunch; left; eexists; reflexivity. }
  destruct (get_cases finData) as [[e He]|Hget].
  { rewrite He. left; eexists; reflexivity. }
  destruct (Hget "time_to_submit_ms") as [ms ->].
  destruct (Hget "log_table") as [table ->].
  destruct (Hget "final") as [final ->].
  crunch; first [left; eexists; reflexivity
                | right; eexists _, _; rewrite <- !app_assoc; reflexivity].
Qed.

(** A [null] among the questions makes the loop throw. *)
Lemma collect_null (qs : list json) :
  In JNull qs ->
  forall answers w, exists e, fst (AppFollowups.collect env qs answers w) = Throw e.
Proof.
  induction qs as [|q qs IH]; intros Hin answers w; [contradiction|].
  simpl. unfold bind at 1.
  destruct (ask_run env q w) as (c & texts & Hask & Hc & _).
  destruct Hin as [->|Hin].
  - eexists. reflexivity.
  - rewrite Hask. destruct c as [answer| |e]; [|done|eexists; reflexivity].
    unfold lift, bind, ret, throw.
    destruct (get (Some q) "id") as [id|e]; [|eexists; reflexivity].
    destruct (template id) as [k|e]; [|eexists; reflexivity].
    apply IH, Hin.
Qed.

Lemma same_run_same_prompts {A : Type} (c c' : completion A) (v v' : session)
    (tr : list event) (texts texts' : list string) :
  (c, {| vars := v; trace := tr ++ map Prompt texts |})
  = (c', {| vars := v'; trace := tr ++ map Prompt texts' |}) ->
  length texts = length texts'.
Proof.
  intros H. injection H as _ _ Htr. apply app_inv_head in Htr.
  apply (f_equal (@length event)) in Htr. now rewrite !length_map in Htr.
Qed.

(** The loop stops at the first [null] at the latest, before its prompt. *)
Lemma collect_null_short (qs : list json) :
  In JNull qs ->
  forall answers w c texts,
    AppFollowups.collect env qs answers w
    = (c, {| vars := vars w; trace := trace w ++ map Prompt texts |}) ->
    (length texts < length qs)%nat.
Proof.
  induction qs as [|q qs IH]; intros Hin answers w c texts Hcol; [contradiction|].
  simpl in Hcol. unfold bind at 1 in Hcol.
  destruct (ask_run env q w) as (c1 & t1 & Hask & Hc1 & Hle1 & _).
  destruct Hin as [->|Hin].
  - assert (Hnull : AppFollowups.ask env JNull w
                    = (Throw (TypeError "Cannot read properties of null"),
                       {| vars := vars w; trace := trace w ++ map Prompt [] |})).
    { simpl. rewrite world_eta. reflexivity. }
    rewrite Hnull in Hcol. apply same_run_same_prompts in Hcol.
    simpl in *. lia.
  - assert (Hne : (1 <= length qs)%nat) by (destruct qs; [contradiction|simpl; lia]).
    rewrite Hask in Hcol. destruct c1 as [answer| |e']; [|done|].
    + unfold lift, bind, ret, throw in Hcol.
      destruct (get (Some q) "id") as [id|e'].
      2:{ apply same_run_same_prompts in Hcol. simpl. lia. }
      destruct (template id) as [k|e'].
      2:{ apply same_run_same_prompts in Hcol. simpl. lia. }
      destruct (collect_run env qs (assign k (trim answer) answers)
                  {| vars := vars w; trace := trace w ++ map Prompt t1 |})
        as (c2 & t2 & Hcol2 & _).
      pose proof (IH Hin _ _ _ _ Hcol2) as Hlt.
      rewrite Hcol2 in Hcol. simpl in Hcol.
      rewrite <- app_assoc, <- map_app in Hcol.
      apply same_run_same_prompts in Hcol. rewrite length_app in Hcol.
      simpl. lia.
    + apply same_run_same_prompts in Hcol. simpl. lia.
Qed.

End Questions.


(** X13. A [null] among the follow-up questions stops the submission: the
    finalize request is not sent, the failure is alerted, and the session
    stays confirmed with its user id. *)
Theorem followups_null_question_aborts
    env inquiry Description s followRes followData needs qs :
  ready s -> valid_form inquiry Description ->
  let b := TicketBody (userId s) inquiry (composed inquiry Description) in
  server env 0 Text.ai_followups b = Responds followRes ->
  ok followRes = true -> payload followRes = inr followData ->
  get (Some followData) "needs_followup" = Ok needs -> truthy needs = true ->
  get (Some followData) "questions" = Ok (Some (JArr qs)) ->
  In JNull qs ->
  let w := AppFollowups.submitForm env inquiry Description s in
  vars w = s
  /\ fetches (trace w) = [Fetch Text.ai_followups b]
  /\ (length (prompts (trace w)) < length qs)%nat
  /\ exists e, alerts (trace w) = [Alert (Text.went_wrong +:+ message e)].
Proof.
  intros Hr Hv b Hs Hok Hp Hg Hn Hq Hnull. cbv zeta.
  pose proof (followups_after_questions env inquiry Description s followRes
                followData needs _ qs Hr Hv Hs Hok Hp Hg Hn Hq eq_refl) as H.
  cbv zeta in H.
  pose proof (submitForm_of_try app_followups env inquiry Description s) as Hw.
  simpl in Hw. rewrite Hw. clear Hw.
  destruct (collect_null env qs Hnull ∅
              {| vars := s; trace := [Fetch Text.ai_followups b] |}) as [e He].
  destruct (collect_run env qs ∅ {| vars := s; trace := [Fetch Text.ai_followups b] |})
    as (c & texts & Hcol & Hc & Hle & Hall).
  fold b in H. rewrite Hcol in H, He. simpl in H, He. subst c.
  rewrite H. simpl.
  rewrite ?fetches_app, ?fetches_prompts, ?prompts_app, ?prompts_prompts,
    ?alerts_app, ?alerts_prompts, ?length_app, ?length_map; simpl.
  repeat split; eauto.
  rewrite Nat.add_0_r.
  eapply (collect_null_short env qs Hnull). exact Hcol.
Qed.

(** X14. When the determination asks for follow-up and its [questions]
    member is missing, or is neither an array nor a string, the submission
    fails before any prompt: the determination is the only request, the
    failure is alerted, and the session is kept. *)
Theorem followups_questions_not_iterable
    env inquiry Description s followRes followData needs questions :
  ready s -> valid_form inquiry Description ->
  let b := TicketBody (userId s) inquiry (composed inquiry Description) in
  server env 0 Text.ai_followups b = Responds followRes ->
  ok followRes = true -> payload followRes = inr followData ->
  get (Some followData) "needs_followup" = Ok needs -> truthy needs = true ->
  get (Some followData) "questions" = Ok questions ->
  isArray questions = false -> (forall t, questions <> Some (JStr t)) ->
  exists e,
    AppFollowups.submitForm env inquiry Description s
    = {| vars := s;
         trace := [Fetch Text.ai_followups b; ConsoleError e;
                   Alert (Text.went_wrong +:+ message e)] |}.
Proof.
  intros [Hc Hu] (Hi1 & Hi2 & Hd) b Hs Hok Hp Hg Hn Hq Harr Hstr. subst b.
  destruct s as [u c]; simpl in Hc, Hu, Hs; subst c.
  apply String.eqb_neq in Hi1, Hi2, Hd.
  assert (Hit : iterate questions = Raise (TypeError "is not iterable")).
  { destruct questions as [[]|]; try reflexivity; [|discriminate].
    exfalso. eapply Hstr. reflexivity. }
  unfold AppFollowups.submitForm, AppFollowups.submitForm_body,
    AppFollowups.submitForm_try, AppFollowups.submitForm_catch, composed in *.
  unfold_monad; simpl. rewrite Hu; simpl. rewrite Hi1, Hi2, Hd; simpl.
  rewrite Hs; simpl. rewrite Hp, Hok; simpl. rewrite Hg, Hn; simpl.
  rewrite Hq, Hit. eexists. reflexivity.
Qed.

Lemma followups_questions_not_iterable_witness :
  let env := Scenario.asking_nothing in
  let followData := JObj [("needs_followup", JBool true)] in
  let b := TicketBody (userId Sample.user7) "Billing" (composed "Billing" "late fee") in
  ready Sample.user7 /\ valid_form "Billing" "late fee"
  /\ server env 0 Text.ai_followups b = Sample.accepted followData
  /\ get (Some followData) "questions" = Ok None
  /\ exists e,
       AppFollowups.submitForm env "Billing" "late fee" Sample.user7
       = {| vars := Sample.user7;
            trace := [Fetch Text.ai_followups b; ConsoleError e;
                      Alert (Text.went_wrong +:+ message e)] |}.
Proof.
  cbv zeta.
  assert (Hr : ready Sample.user7) by (split; reflexivity).
  assert (Hv : valid_form "Billing" "late fee")
    by (repeat split; intros H; vm_compute in H; discriminate).
  split; [exact Hr|]. split; [exact Hv|]. do 2 (split; [reflexivity|]).
  refine (followups_questions_not_iterable Scenario.asking_nothing
            "Billing" "late fee" Sample.user7 _ _ (Some (JBool true)) None Hr Hv
            eq_refl eq_refl eq_refl eq_refl eq_refl eq_refl eq_refl _).
  intros t H. discriminate.
Defined.

(** X16. A first response that is accepted but whose body is the JSON
    value [null] is handled as a failure: reading a member of it throws,
    the failure is alerted, nothing more is requested, and the session is
    not reset. *)
Theorem accepted_null_body_is_failure v env inquiry Description s r :
  ready s -> valid_form inquiry Description ->
  let b := TicketBody (userId s) inquiry (composed inquiry Description) in
  server env 0 (first_endpoint v) b = Responds r ->
  ok r = true -> payload r = inr JNull ->
  exists e,
    submitForm v env inquiry Description s
    = {| vars := s;
         trace := [Fetch (first_endpoint v) b; ConsoleError e;
                   Alert (Text.went_wrong +:+ message e)] |}.
Proof.
  intros [Hc Hu] (Hi1 & Hi2 & Hd) b Hs Hok Hp. subst b.
  destruct s as [u c]; simpl in Hc, Hu, Hs; subst c.
  apply String.eqb_neq in Hi1, Hi2, Hd.
  destruct v; unfold submitForm, AppJs.submitForm, AppFollowups.submitForm,
    AppJs.submitForm_body, AppFollowups.submitForm_body,
    AppJs.submitForm_try, AppFollowups.submitForm_try,
    AppJs.submitForm_catch, AppFollowups.submitForm_catch,
    first_endpoint, composed in *;
    unfold_monad; simpl; rewrite Hu; simpl; rewrite Hi1, Hi2, Hd; simpl;
    rewrite Hs; simpl; rewrite Hp, Hok; simpl;
    match goal with
    | |- context [ConsoleError ?e] => exists e; reflexivity
    end.
Qed.

Lemma accepted_null_body_is_failure_witness :
  let env := Scenario.accepting JNull in
  let b := TicketBody (userId Sample.user7) "Billing" (composed "Billing" "late fee") in
  ready Sample.user7 /\ valid_form "Billing" "late fee"
  /\ server env 0 (first_endpoint app_js) b = Sample.accepted JNull
  /\ exists e,
       submitForm app_js env "Billing" "late fee" Sample.user7
       = {| vars := Sample.user7;
            trace := [Fetch (first_endpoint app_js) b; ConsoleError e;
                      Alert (Text.went_wrong +:+ message e)] |}.
Proof.
  cbv zeta.
  assert (Hr : ready Sample.user7) by (split; reflexivity).
  assert (Hv : valid_form "Billing" "late fee")
    by (repeat split; intros H; vm_compute in H; discriminate).
  split; [exact Hr|]. split; [exact Hv|]. split; [reflexivity|].
  exact (accepted_null_body_is_failure app_js (Scenario.accepting JNull)
           "Billing" "late fee" Sample.user7 _ Hr Hv eq_refl eq_refl eq_refl).
Defined.

(** Witnesses of the properties above. *)

Lemma submit_refusal_message_witness :
  let fs := [("error", JStr "No draft for user")] in
  let env := Scenario.refusing fs in
  let s := Sample.user7 in
  let b := TicketBody (userId s) "Billing" (composed "Billing" "late fee") in
  ready s /\ valid_form "Billing" "late fee"
  /\ server env 0 (first_endpoint app_followups) b = Sample.refused (JObj fs)
  /\ (let w := submitForm app_followups env "Billing" "late fee" s in
      let failed (e : exn) : world :=
        {| vars := s;
           trace := [Fetch (first_endpoint app_followups) b; ConsoleError e;
                     Alert (Text.went_wrong +:+ message e)] |} in
      (forall msg, field "error" fs = Some (JStr msg) -> msg <> "" ->
                   w = failed (Error msg))
      /\ (truthy (field "error" fs) = false ->
          w = failed (Error (first_fallback app_followups)))).
Proof.
  cbv zeta.
  assert (Hr : ready Sample.user7) by (split; reflexivity).
  assert (Hv : valid_form "Billing" "late fee")
    by (repeat split; intros H; vm_compute in H; discriminate).
  split; [exact Hr|]. split; [exact Hv|]. split; [reflexivity|].
  exact (submit_refusal_message app_followups
           (Scenario.refusing [("error", JStr "No draft for user")])
           "Billing" "late fee" Sample.user7 _ _ Hr Hv eq_refl eq_refl eq_refl).
Defined.

Lemma versions_agree_without_followup_witness :
  let envF := Sample.plain in
  let envJ := Scenario.accepting (JObj [("time_to_submit_ms", JNum 12)]) in
  let s := Sample.user7 in
  let b := TicketBody (userId s) "Billing" (composed "Billing" "late fee") in
  ready s /\ valid_form "Billing" "late fee"
  /\ server envF 1 Text.tickets b = server envJ 0 Text.tickets b
  /\ (let wF := submitForm app_followups envF "Billing" "late fee" s in
      let wJ := submitForm app_js envJ "Billing" "late fee" s in
      vars wF = vars wJ
      /\ fetches (trace wF) = Fetch Text.ai_followups b :: fetches (trace wJ)
      /\ fetches (trace wJ) = [Fetch Text.tickets b]).
Proof.
  cbv zeta.
  assert (Hr : ready Sample.user7) by (split; reflexivity).
  assert (Hv : valid_form "Billing" "late fee")
    by (repeat split; intros H; vm_compute in H; discriminate).
  split; [exact Hr|]. split; [exact Hv|]. split; [reflexivity|].
  exact (versions_agree_without_followup Sample.plain
           (Scenario.accepting (JObj [("time_to_submit_ms", JNum 12)]))
           "Billing" "late fee" Sample.user7 _ _ (Some (JBool false)) Hr Hv
           eq_refl eq_refl eq_refl eq_refl eq_refl eq_refl).
Defined.


Lemma followups_null_question_aborts_witness :
  let qs := [JObj [("id", JNum 1); ("question", JStr "Which invoice?")]; JNull] in
  let env := Scenario.asking_raw (JArr qs) in
  let s := Sample.user7 in
  let b := TicketBody (userId s) "Billing" (composed "Billing" "late fee") in
  ready s /\ valid_form "Billing" "late fee"
  /\ server env 0 Text.ai_followups b
     = Sample.accepted (JObj [("needs_followup", JBool true); ("questions", JArr qs)])
  /\ In JNull qs
  /\ (let w := AppFollowups.submitForm env "Billing" "late fee" s in
      vars w = s
      /\ fetches (trace w) = [Fetch Text.ai_followups b]
      /\ (length (prompts (trace w)) < length qs)%nat
      /\ exists e, alerts (trace w) = [Alert (Text.went_wrong +:+ message e)]).
Proof.
  cbv zeta.
  assert (Hr : ready Sample.user7) by (split; reflexivity).
  assert (Hv : valid_form "Billing" "late fee")
    by (repeat split; intros H; vm_compute in H; discriminate).
  assert (Hin : In JNull [JObj [("id", JNum 1); ("question", JStr "Which invoice?")];
                          JNull])
    by (right; left; reflexivity).
  split; [exact Hr|]. split; [exact Hv|]. split; [reflexivity|].
  split; [exact Hin|].
  exact (followups_null_question_aborts
           (Scenario.asking_raw
              (JArr [JObj [("id", JNum 1); ("question", JStr "Which invoice?")];
                     JNull]))
           "Billing" "late fee" Sample.user7 _ _ (Some (JBool true)) _ Hr Hv
           eq_refl eq_refl eq_refl eq_refl eq_refl eq_refl Hin).
Defined.

(** ** Sessions that runs lead to *)

Lemma reachable_consistent v s : reachable v s -> consistent s.
Proof.
  induction 1 as [|env username tableChoice s Hs IH|env inquiry Description s Hs IH].
  - exact consistent_initial.
  - destruct (confirm_cases v env username tableChoice s)
      as [->|(id & r & data & Hid & _ & _ & _ & ->)]; [exact IH|].
    eapply consistent_confirmed; eauto.
  - destruct (submit_vars v env inquiry Description s) as [->| ->];
      [exact IH|exact consistent_initial].
Qed.

(** X17. In the sessions that runs of the two functions lead to, the test
    of [userId] in the guard of [submitForm] never decides: a confirmed
    session holds a user id that passes it, so that a submission sends no
    request exactly when the session is not confirmed, the inquiry is
    empty or the placeholder, or the description is blank. *)
Theorem reachable_guard_is_confirmed v s :
  reachable v s ->
  (confirmed s = true -> truthy_id (userId s) = true)
  /\ (forall env inquiry Description,
         urls (trace (submitForm v env inquiry Description s)) = []
         <-> (confirmed s = false \/ inquiry = "" \/ inquiry = Text.placeholder
              \/ trim Description = "")).
Proof.
  intros Hreach. apply reachable_consistent in Hreach.
  assert (Hid : confirmed s = true -> truthy_id (userId s) = true).
  { intros Hc. apply Hreach in Hc as (n & -> & Hn). simpl.
    destruct (Z.eqb_spec n 0); [lia|reflexivity]. }
  split; [exact Hid|].
  intros env inquiry Description. rewrite no_request_iff_rejected.
  unfold rejected. split; [|tauto].
  intros [H|[H|H]]; auto.
  destruct (confirmed s); [|auto]. rewrite Hid in H by reflexivity. discriminate.
Qed.

Lemma reachable_guard_is_confirmed_witness :
  let s := vars (confirmUser app_followups Sample.plain "user7" (JNum 3) initial) in
  reachable app_followups s
  /\ (confirmed s = true -> truthy_id (userId s) = true)
  /\ (forall env inquiry Description,
         urls (trace (submitForm app_followups env inquiry Description s)) = []
         <-> (confirmed s = false \/ inquiry = "" \/ inquiry = Text.placeholder
              \/ trim Description = "")).
Proof.
  cbv zeta.
  assert (H : reachable app_followups
                (vars (confirmUser app_followups Sample.plain "user7" (JNum 3) initial)))
    by (apply reach_confirm, reach_initial).
  split; [exact H|].
  exact (reachable_guard_is_confirmed app_followups _ H).
Defined.

Lemma completes_initial v env inquiry Description :
  completes v env inquiry Description initial = false.
Proof. destruct v; reflexivity. Qed.

Lemma successes_initial v calls : successes v calls initial = O.
Proof.
  induction calls as [|[env [inquiry Description]] rest IH]; simpl; [reflexivity|].
  rewrite completes_initial.
  replace (vars (submitForm v env inquiry Description initial)) with initial
    by (destruct v; reflexivity).
  exact IH.
Qed.

(** X18. A confirmation is used up by the first submission that goes
    through: in a series of calls of [submitForm] with no call of
    [confirmUser] between them, from any session and against any backends,
    at most one call runs to its end. *)
Theorem one_submission_per_confirmation v calls s :
  (successes v calls s <= 1)%nat.
Proof.
  revert s. induction calls as [|[env [inquiry Description]] rest IH]; intros s;
    simpl; [lia|].
  pose proof (submitForm_of_try v env inquiry Description s) as Hw.
  pose proof (try_vars v env inquiry Description s) as Hv. cbv zeta in Hv.
  unfold completes.
  destruct (submitForm_try v env inquiry Description (start s)) as [[[]| |e] w];
    simpl in *; rewrite Hw; simpl.
  - rewrite Hv, successes_initial. lia.
  - apply IH.
  - apply IH.
Qed.

(** * Properties stated by the responses of the backend *)

(** ** Questions held by payloads *)

Lemma represents_encode (q : question) : represents (encode q) q.
Proof.
  destruct q as [i text ty [cs|]]; unfold represents, encode; simpl;
    eexists; (split; [reflexivity|]); repeat split; reflexivity.
Qed.

Section Represented.

Variable env : environment.

(** A payload that holds a question is asked by one prompt, which shows
    what the specification says. *)
Lemma ask_represented (j : json) (q : question) (w : world) :
  represents j q ->
  AppFollowups.ask env j w
  = (Normal (or_empty (user env (length (prompts (trace w))) (prompt_text q))),
     {| vars := vars w; trace := trace w ++ [Prompt (prompt_text q)] |}).
Proof.
  intros (fs & -> & _ & Hq & Ht & Hc).
  destruct q as [i text ty choices]. simpl in Hq, Ht, Hc.
  unfold AppFollowups.ask, AppFollowups.shows_choices, prompt_text, get.
  unfold_monad. cbn [q_type q_choices q_question].
  rewrite Ht, Hq, Hc.
  destruct ty, choices as [[|c cs]|]; try reflexivity.
  cbn [option_map strict_eq_string type_name].
  replace (String.eqb "multiple_choice" "multiple_choice") with true by reflexivity.
  cbn [isArray]. rewrite array_join_strings. reflexivity.
Qed.

Lemma key_represented (j : json) (q : question) :
  represents j q ->
  get (Some j) "id" = Ok (Some (id_json (q_id q)))
  /\ template (Some (id_json (q_id q))) = Ok (key q).
Proof.
  intros (fs & -> & Hi & _). unfold get. rewrite Hi. split; [reflexivity|].
  unfold key. destruct (q_id q); reflexivity.
Qed.

(** The loop over payloads that hold questions runs to its end. *)
Lemma collect_represented (js : list json) (qs : list question) :
  Forall2 represents js qs ->
  forall answers w,
    AppFollowups.collect env js answers w
    = (Normal (file_answers env (length (prompts (trace w))) qs answers),
       {| vars := vars w; trace := trace w ++ map Prompt (map prompt_text qs) |}).
Proof.
  induction 1 as [|j q js qs Hjq _ IH]; intros answers w; simpl.
  - now rewrite world_eta.
  - unfold bind at 1. rewrite (ask_represented j q w Hjq).
    destruct (key_represented j q Hjq) as [-> Hk].
    unfold lift at 1, bind at 1, ret at 1.
    rewrite Hk. unfold lift at 1, bind at 1, ret at 1.
    rewrite IH. simpl.
    rewrite prompts_app, length_app, <- app_assoc. simpl.
    replace (length (prompts (trace w)) + 1)%nat
      with (S (length (prompts (trace w)))) by lia.
    reflexivity.
Qed.

(** An accepted submission runs the [try] block to its end. *)
Lemma accepted_submitted v inquiry Description s :
  ready s -> valid_form inquiry Description ->
  accepted env inquiry Description s v ->
  submitted v env inquiry Description s.
Proof.
  intros Hr Hv Hacc.
  destruct Hacc as [r fs ms Hs Hok Hp Hms
                   |r0 fs0 r fs ms Hs0 Hok0 Hp0 Hn Hs Hok Hp Hms
                   |r0 fs0 js qs r fs ms table Hs0 Hok0 Hp0 Hn Hq Hrep Hs Hok Hp Hms Htab].
  - eapply submitted_app_js; eauto.
  - eapply submitted_directly; eauto.
  - destruct Hr as [Hc Hu]. destruct Hv as (Hi1 & Hi2 & Hd). unfold submitted.
    destruct s as [u c]; simpl in Hc, Hu, Hs0, Hs; subst c.
    apply String.eqb_neq in Hi1, Hi2, Hd.
    unfold submitForm_try, AppFollowups.submitForm_try, start, composed in *.
    unfold_monad; simpl. rewrite Hu; simpl. rewrite Hi1, Hi2, Hd; simpl.
    rewrite Hs0; simpl. rewrite Hp0, Hok0; simpl.
    unfold get at 1. rewrite Hn; simpl.
    unfold get at 1. rewrite Hq. unfold iterate.
    rewrite (collect_represented js qs Hrep). simpl.
    rewrite fetches_prompts. simpl.
    rewrite Hs; simpl. rewrite Hp, Hok; simpl.
    unfold get. rewrite Hms, Htab. reflexivity.
Qed.

End Represented.

(** C3. After every submission that the backend accepts -- the ticket
    request of [frontend/app.js], the ticket request after a determination
    without follow-up, or the finalize request after the follow-up
    questions -- [confirmed] is false and [userId] is null; the next call
    of [submitForm] is rejected without a request, and the session stays
    like that until a call of [confirmUser] has its draft-start request
    accepted. *)
Theorem submit_success_resets_session v env inquiry Description s :
  ready s -> valid_form inquiry Description ->
  accepted env inquiry Description s v ->
  let s' := vars (submitForm v env inquiry Description s) in
  confirmed s' = false /\ userId s' = None
  /\ (forall v' env' inquiry' Description',
         submitForm v' env' inquiry' Description' s'
         = {| vars := s'; trace := [Alert Text.confirm_first] |})
  /\ (forall v' env' username tableChoice,
         vars (confirmUser v' env' username tableChoice s') = s'
         \/ exists id r data,
              parseUserId username = Some id
              /\ server env' 0 Text.draft_start (draft_body v' (Some id) tableChoice)
                 = Responds r
              /\ ok r = true /\ payload r = inr data).
Proof.
  intros Hr Hv Hacc.
  pose proof (accepted_submitted env v inquiry Description s Hr Hv Hacc) as H.
  unfold submitted in H.
  assert (Hs' : vars (submitForm v env inquiry Description s) = initial).
  { rewrite submitForm_of_try.
    pose proof (try_vars v env inquiry Description s) as Hvars. cbv zeta in Hvars.
    destruct (submitForm_try v env inquiry Description (start s)) as [c w].
    simpl in H. subst c. exact Hvars. }
  cbv zeta. rewrite Hs'. repeat split.
  - intros [] env' inquiry' Description'; reflexivity.
  - intros v' env' username tableChoice.
    destruct (confirm_cases v' env' username tableChoice initial)
      as [Hk|(id & r & data & Hid & Hreq & Hok & Hp & _)]; [now left|].
    right. exists id, r, data. auto.
Qed.

Lemma submit_success_resets_session_witness :
  let time := JObj [("time_to_submit_ms", JNum 12)] in
  let qs := [Sample.which; Sample.how] in
  let s := Sample.user7 in
  let resets (v : version) (env : environment) : Prop :=
    let s' := vars (submitForm v env "Billing" "late fee" s) in
    confirmed s' = false /\ userId s' = None
    /\ (forall v' env' inquiry' Description',
           submitForm v' env' inquiry' Description' s'
           = {| vars := s'; trace := [Alert Text.confirm_first] |})
    /\ (forall v' env' username tableChoice,
           vars (confirmUser v' env' username tableChoice s') = s'
           \/ exists id r data,
                parseUserId username = Some id
                /\ server env' 0 Text.draft_start
                          (draft_body v' (Some id) tableChoice) = Responds r
                /\ ok r = true /\ payload r = inr data) in
  ready s /\ valid_form "Billing" "late fee"
  /\ accepted (Scenario.accepting time) "Billing" "late fee" s app_js
  /\ accepted Sample.plain "Billing" "late fee" s app_followups
  /\ accepted (Sample.asking qs) "Billing" "late fee" s app_followups
  /\ resets app_js (Scenario.accepting time)
  /\ resets app_followups Sample.plain
  /\ resets app_followups (Sample.asking qs).
Proof.
  cbv zeta.
  assert (Hr : ready Sample.user7) by (split; reflexivity).
  assert (Hv : valid_form "Billing" "late fee")
    by (repeat split; intros H; vm_compute in H; discriminate).
  assert (H1 : accepted (Scenario.accepting (JObj [("time_to_submit_ms", JNum 12)]))
                 "Billing" "late fee" Sample.user7 app_js).
  { eapply (accepted_app_js _ _ _ _ _ [("time_to_submit_ms", JNum 12)] "12");
      reflexivity. }
  assert (H2 : accepted Sample.plain "Billing" "late fee" Sample.user7 app_followups).
  { eapply (accepted_directly _ _ _ _ _
              [("needs_followup", JBool false); ("time_to_submit_ms", JNum 12)]
              _ [("time_to_submit_ms", JNum 12)] "12"); reflexivity. }
  assert (H3 : accepted (Sample.asking [Sample.which; Sample.how])
                 "Billing" "late fee" Sample.user7 app_followups).
  { eapply (accepted_by_finalize _ _ _ _ _
              [("needs_followup", JBool true);
               ("questions", JArr (map encode [Sample.which; Sample.how]))]
              (map encode [Sample.which; Sample.how]) [Sample.which; Sample.how]
              _ [("time_to_submit_ms", JNum 12); ("log_table", JNum 3); ("final", JNull)]
              "12" "3"); try reflexivity.
    repeat constructor; eexists; (split; [reflexivity|]); repeat split; reflexivity. }
  split; [exact Hr|]. split; [exact Hv|].
  split; [exact H1|]. split; [exact H2|]. split; [exact H3|].
  split; [|split].
  - exact (submit_success_resets_session app_js _ "Billing" "late fee" Sample.user7
             Hr Hv H1).
  - exact (submit_success_resets_session app_followups _ "Billing" "late fee"
             Sample.user7 Hr Hv H2).
  - exact (submit_success_resets_session app_followups _ "Billing" "late fee"
             Sample.user7 Hr Hv H3).
Defined.

(** ** The mapping of the answers *)

#[local] Set Warnings "-clear-no-such-hyp".

Lemma dom_assign (k v : string) (o : gmap string string) :
  dom (assign k v o)
  = (if String.eqb k "__proto__" then dom o else {[k]} ∪ dom o : gset string).
Proof.
  unfold assign. destruct (String.eqb k "__proto__"); [reflexivity|].
  apply dom_insert_L.
Qed.

(** The keys of the mapping are those it had and those of the questions. *)
Lemma dom_file_answers env (qs : list question) :
  forall n a,
    dom (file_answers env n qs a) = dom a ∪ list_to_set (filed_keys qs).
Proof.
  induction qs as [|q qs IH]; intros n a; simpl.
  - unfold filed_keys. simpl. set_solver.
  - rewrite IH, dom_assign. unfold filed_keys. simpl.
    destruct (String.eqb (key q) "__proto__"); simpl; set_solver.
Qed.

Lemma size_list_to_set_le (l : list string) :
  (size (list_to_set l : gset string) <= length l)%nat.
Proof.
  induction l as [|x l IH].
  - rewrite list_to_set_nil, size_empty. simpl. lia.
  - rewrite list_to_set_cons. simpl.
    destruct (decide (x ∈ (list_to_set l : gset string))) as [Hin|Hout].
    + replace ({[x]} ∪ list_to_set l : gset string) with (list_to_set l : gset string)
        by set_solver. lia.
    + rewrite size_union by set_solver. rewrite size_singleton. lia.
Qed.

Lemma size_list_to_set_full (l : list string) :
  size (list_to_set l : gset string) = length l <-> NoDup l.
Proof.
  split; [|apply size_list_to_set].
  induction l as [|x l IH]; intros H; [constructor|].
  rewrite list_to_set_cons in H. simpl in H.
  pose proof (size_list_to_set_le l) as Hle.
  destruct (decide (x ∈ (list_to_set l : gset string))) as [Hin|Hout].
  - replace ({[x]} ∪ list_to_set l : gset string) with (list_to_set l : gset string)
      in H by set_solver. lia.
  - rewrite size_union in H by set_solver. rewrite size_singleton in H.
    constructor; [set_solver|]. apply IH. lia.
Qed.

Lemma filed_keys_length (qs : list question) :
  (length (filed_keys qs) <= length qs)%nat
  /\ (length (filed_keys qs) = length qs <-> ~ In "__proto__" (map key qs)).
Proof.
  unfold filed_keys. induction qs as [|q qs [IHle IH]]; simpl.
  - split; [lia|]. split; auto.
  - destruct (String.eqb_spec (key q) "__proto__") as [->|Hne]; simpl.
    + split; [lia|]. split; [lia|]. intros H. exfalso. apply H. now left.
    + split; [lia|]. rewrite Nat.succ_inj_wd, IH. split.
      * intros H [Heq|Hin]; [congruence|contradiction].
      * intros H Hin. apply H. now right.
Qed.

Lemma filed_keys_all (qs : list question) :
  ~ In "__proto__" (map key qs) -> filed_keys qs = map key qs.
Proof.
  unfold filed_keys. induction qs as [|q qs IH]; simpl; [reflexivity|].
  intros H. destruct (String.eqb_spec (key q) "__proto__") as [Heq|Hne]; simpl.
  - exfalso. apply H. now left.
  - rewrite IH; [reflexivity|]. intros Hin. apply H. now right.
Qed.

(** The mapping has an entry per question exactly when the keys of the
    questions are pairwise different and none is [__proto__]. *)
Lemma size_file_answers env (qs : list question) :
  (size (file_answers env 0 qs ∅) <= length qs)%nat
  /\ (size (file_answers env 0 qs ∅) = length qs
      <-> NoDup (map key qs) /\ ~ In "__proto__" (map key qs)).
Proof.
  assert (Hsize : size (file_answers env 0 qs ∅)
                  = size (list_to_set (filed_keys qs) : gset string)).
  { rewrite <- size_dom, dom_file_answers, dom_empty_L. f_equal. set_solver. }
  rewrite Hsize.
  pose proof (size_list_to_set_le (filed_keys qs)) as Hle.
  destruct (filed_keys_length qs) as [Hlen Hfull].
  split; [lia|]. split.
  - intros H. assert (Hl : length (filed_keys qs) = length qs) by lia.
    apply Hfull in Hl as Hp. split; [|exact Hp].
    rewrite <- (filed_keys_all qs Hp). apply size_list_to_set_full. lia.
  - intros [Hnd Hp]. rewrite (filed_keys_all qs Hp).
    rewrite size_list_to_set by exact Hnd. now rewrite length_map.
Qed.

(** C5, as amended. When the follow-up determination answers with
    [needs_followup] true and a list of N questions -- objects that hold
    an [id] that is a string or a safe integer, a [question] text, a
    [type], and [choices] as a list of strings or not at all -- N prompts
    are shown, one per question and in the order received, a
    multiple-choice question with choices showing its text and the list of
    its choices; a cancelled prompt files the empty string and the run goes
    on; and the finalize request carries a mapping whose keys are the
    string forms of the question ids other than [__proto__], each with the
    trimmed answer to the last question of that key. The mapping has N
    entries exactly when the keys are pairwise different and none is
    [__proto__], and fewer than N otherwise. *)
Theorem followups_prompt_each_question_and_file_answers
    env inquiry Description s followRes followData needs js qs :
  ready s -> valid_form inquiry Description ->
  let b := TicketBody (userId s) inquiry (composed inquiry Description) in
  server env 0 Text.ai_followups b = Responds followRes ->
  ok followRes = true -> payload followRes = inr followData ->
  get (Some followData) "needs_followup" = Ok needs -> truthy needs = true ->
  get (Some followData) "questions" = Ok (Some (JArr js)) ->
  Forall2 represents js qs -> Forall safe_id qs ->
  let w := AppFollowups.submitForm env inquiry Description s in
  prompts (trace w) = map Prompt (map prompt_text qs)
  /\ (forall i q, user env i (prompt_text q) = None -> filed_answer env i q = "")
  /\ exists answers,
       fetches (trace w)
       = [Fetch Text.ai_followups b;
          Fetch Text.ai_finalize (FinalizeBody (userId s) answers)]
       /\ dom answers = list_to_set (filed_keys qs)
       /\ (forall k v,
              answers !! k = Some v ->
              exists i q, qs !! i = Some q /\ key q = k /\ v = filed_answer env i q)
       /\ (forall i q,
              qs !! i = Some q -> key q <> "__proto__" ->
              (forall j q', (i < j)%nat -> qs !! j = Some q' -> key q' <> key q) ->
              answers !! key q = Some (filed_answer env i q))
       /\ (size answers <= length qs)%nat
       /\ (size answers = length qs
           <-> NoDup (map key qs) /\ ~ In "__proto__" (map key qs)).
Proof.
  intros [Hc Hu] (Hi1 & Hi2 & Hd) b Hs Hok Hp Hg Hn Hq Hrep _. subst b. cbv zeta.
  assert (Hshape : exists s' tail,
            fetches tail = [] /\ prompts tail = []
            /\ AppFollowups.submitForm env inquiry Description s
               = {| vars := s';
                    trace := Fetch Text.ai_followups
                               (TicketBody (userId s) inquiry
                                           (composed inquiry Description))
                             :: (map Prompt (map prompt_text qs)
                                 ++ Fetch Text.ai_finalize
                                      (FinalizeBody (userId s)
                                                    (file_answers env 0 qs ∅))
                                    :: tail)%list |}).
  { destruct s as [u c]; simpl in Hc, Hu, Hs; subst c.
    apply String.eqb_neq in Hi1, Hi2, Hd.
    unfold AppFollowups.submitForm, AppFollowups.submitForm_body,
      AppFollowups.submitForm_try, AppFollowups.submitForm_catch, composed in *.
    unfold_monad; simpl. rewrite Hu; simpl. rewrite Hi1, Hi2, Hd; simpl.
    rewrite Hs; simpl. rewrite Hp, Hok; simpl. rewrite Hg, Hn; simpl.
    rewrite Hq. unfold iterate. rewrite (collect_represented env js qs Hrep). simpl.
    crunch; rewrite <- ?app_assoc; simpl;
      eexists _, _; (split; [|split; [|reflexivity]]); reflexivity. }
  destruct Hshape as (s' & tail & Hft & Hpt & ->). simpl.
  split; [|split].
  - rewrite prompts_app, prompts_prompts. simpl. rewrite Hpt. now rewrite app_nil_r.
  - intros i q H. unfold filed_answer. rewrite H. reflexivity.
  - exists (file_answers env 0 qs ∅).
    destruct (size_file_answers env qs) as [Hle Hfull].
    split; [|split; [|split; [|split; [|split]]]].
    + rewrite fetches_app, fetches_prompts. simpl. now rewrite Hft.
    + rewrite dom_file_answers, dom_empty_L. set_solver.
    + intros k v H. apply file_answers_lookup in H as [H|H]; [|exact H].
      rewrite lookup_empty in H. discriminate.
    + intros i q Hi Hk Hl. apply (file_answers_last env qs 0 ∅ i q Hi Hk Hl).
    + exact Hle.
    + exact Hfull.
Qed.

Lemma followups_prompt_each_question_and_file_answers_witness :
  let which := Sample.which in
  let how := {| q_id := IdNum 5; q_question := "How urgent?";
                q_type := multiple_choice; q_choices := Some ["low"; "high"] |} in
  let qs := [which; how] in
  let js := [JObj [("type", JStr "free_text"); ("id", JStr "q1");
                   ("question", JStr "Which invoice?"); ("hint", JNull)];
             encode how] in
  let env := Scenario.asking_raw (JArr js) in
  let followData := JObj [("needs_followup", JBool true); ("questions", JArr js)] in
  let s := Sample.user7 in
  let b := TicketBody (userId s) "Billing" (composed "Billing" "late fee") in
  ready s /\ valid_form "Billing" "late fee"
  /\ server env 0 Text.ai_followups b = Sample.accepted followData
  /\ Forall2 represents js qs /\ Forall safe_id qs
  /\ (let w := AppFollowups.submitForm env "Billing" "late fee" s in
      prompts (trace w) = map Prompt (map prompt_text qs)
      /\ (forall i q, user env i (prompt_text q) = None -> filed_answer env i q = "")
      /\ exists answers,
           fetches (trace w)
           = [Fetch Text.ai_followups b;
              Fetch Text.ai_finalize (FinalizeBody (userId s) answers)]
           /\ dom answers = list_to_set (filed_keys qs)
           /\ (forall k v,
                  answers !! k = Some v ->
                  exists i q, qs !! i = Some q /\ key q = k
                              /\ v = filed_answer env i q)
           /\ (forall i q,
                  qs !! i = Some q -> key q <> "__proto__" ->
                  (forall j q', (i < j)%nat -> qs !! j = Some q' -> key q' <> key q) ->
                  answers !! key q = Some (filed_answer env i q))
           /\ (size answers <= length qs)%nat
           /\ (size answers = length qs
               <-> NoDup (map key qs) /\ ~ In "__proto__" (map key qs))).
Proof.
  cbv zeta.
  assert (Hr : ready Sample.user7) by (split; reflexivity).
  assert (Hv : valid_form "Billing" "late fee")
    by (repeat split; intros H; vm_compute in H; discriminate).
  assert (Hrep : Forall2 represents
            [JObj [("type", JStr "free_text"); ("id", JStr "q1");
                   ("question", JStr "Which invoice?"); ("hint", JNull)];
             encode {| q_id := IdNum 5; q_question := "How urgent?";
                       q_type := multiple_choice;
                       q_choices := Some ["low"; "high"] |}]
            [Sample.which;
             {| q_id := IdNum 5; q_question := "How urgent?";
                q_type := multiple_choice; q_choices := Some ["low"; "high"] |}])
    by (repeat constructor; eexists; (split; [reflexivity|]);
        repeat split; reflexivity).
  assert (Hsafe : Forall safe_id
            [Sample.which;
             {| q_id := IdNum 5; q_question := "How urgent?";
                q_type := multiple_choice; q_choices := Some ["low"; "high"] |}])
    by (repeat constructor; split; reflexivity).
  split; [exact Hr|]. split; [exact Hv|]. split; [reflexivity|].
  split; [exact Hrep|]. split; [exact Hsafe|].
  exact (followups_prompt_each_question_and_file_answers
           (Scenario.asking_raw _) "Billing" "late fee" Sample.user7 _ _
           (Some (JBool true)) _ _ Hr Hv
           eq_refl eq_refl eq_refl eq_refl eq_refl eq_refl Hrep Hsafe).
Defined.

(** The ids [5] and ["5"] differ and have the same key: both questions are
    asked and one answer is filed. *)
Example followups_same_key_different_ids :
  let five := {| q_id := IdNum 5; q_question := "How urgent?";
                 q_type := free_text; q_choices := None |} in
  let also_five := {| q_id := IdStr "5"; q_question := "Which invoice?";
                      q_type := free_text; q_choices := None |} in
  q_id five <> q_id also_five
  /\ key five = key also_five
  /\ size (file_answers (Scenario.asking_raw JNull) 0 [five; also_five] ∅) = 1%nat.
Proof. cbv zeta. split; [discriminate|]. split; vm_compute; reflexivity. Qed.

(** X15. The notice of a ticket created without follow-up shows the
    [time_to_submit_ms] member of the response: for a safe integer its
    decimal numeral, for a string the string, and if the response has no
    such member, [undefined]. In each case the run is the two requests,
    that notice, the button and the status line, and the session is
    reset. *)
Theorem direct_success_reports_time
    env inquiry Description s followRes followData needs res fs shown :
  ready s -> valid_form inquiry Description ->
  let b := TicketBody (userId s) inquiry (composed inquiry Description) in
  server env 0 Text.ai_followups b = Responds followRes ->
  ok followRes = true -> payload followRes = inr followData ->
  get (Some followData) "needs_followup" = Ok needs -> truthy needs = false ->
  server env 1 Text.tickets b = Responds res ->
  ok res = true -> payload res = inr (JObj fs) ->
  (exists n, safe_integer n /\ field "time_to_submit_ms" fs = Some (JNum n)
             /\ shown = string_of_Z n)
  \/ field "time_to_submit_ms" fs = Some (JStr shown)
  \/ (field "time_to_submit_ms" fs = None /\ shown = "undefined") ->
  AppFollowups.submitForm env inquiry Description s
  = {| vars := initial;
       trace := [Fetch Text.ai_followups b; Fetch Text.tickets b;
                 Alert ("Ticket sendt!" +:+ LF +:+ "Tid brukt: " +:+ shown +:+ " s");
                 SubmitDisabled true; StatusText Text.reconfirm] |}.
Proof.
  intros [Hc Hu] (Hi1 & Hi2 & Hd) b Hs Hok Hp Hg Hn Hs1 Hok1 Hp1 Hshown. subst b.
  assert (Hms : template (field "time_to_submit_ms" fs) = Ok shown).
  { destruct Hshown as [(n & _ & -> & ->)|[-> |[-> ->]]]; reflexivity. }
  destruct s as [u c]; simpl in Hc, Hu, Hs, Hs1; subst c.
  apply String.eqb_neq in Hi1, Hi2, Hd.
  unfold AppFollowups.submitForm, AppFollowups.submitForm_body,
    AppFollowups.submitForm_try, AppFollowups.submitForm_catch, composed in *.
  unfold_monad; simpl. rewrite Hu; simpl. rewrite Hi1, Hi2, Hd; simpl.
  rewrite Hs; simpl. rewrite Hp, Hok; simpl. rewrite Hg, Hn; simpl.
  rewrite Hs1; simpl. rewrite Hp1, Hok1; simpl.
  unfold get. rewrite Hms. reflexivity.
Qed.

Lemma direct_success_reports_time_witness :
  let b := TicketBody (userId Sample.user7) "Billing" (composed "Billing" "late fee") in
  let fs := [("time_to_submit_ms", JNum 12)] in
  ready Sample.user7 /\ valid_form "Billing" "late fee"
  /\ server Sample.plain 1 Text.tickets b = Sample.accepted (JObj fs)
  /\ safe_integer 12 /\ field "time_to_submit_ms" fs = Some (JNum 12)
  /\ AppFollowups.submitForm Sample.plain "Billing" "late fee" Sample.user7
     = {| vars := initial;
          trace := [Fetch Text.ai_followups b; Fetch Text.tickets b;
                    Alert ("Ticket sendt!" +:+ LF +:+ "Tid brukt: "
                           +:+ string_of_Z 12 +:+ " s");
                    SubmitDisabled true; StatusText Text.reconfirm] |}.
Proof.
  cbv zeta.
  assert (Hr : ready Sample.user7) by (split; reflexivity).
  assert (Hv : valid_form "Billing" "late fee")
    by (repeat split; intros H; vm_compute in H; discriminate).
  assert (Hsafe : safe_integer 12) by (split; reflexivity).
  split; [exact Hr|]. split; [exact Hv|]. do 1 (split; [reflexivity|]).
  split; [exact Hsafe|]. split; [reflexivity|].
  exact (direct_success_reports_time Sample.plain "Billing" "late fee" Sample.user7
           _ _ (Some (JBool false)) _ [("time_to_submit_ms", JNum 12)]
           (string_of_Z 12) Hr Hv
           eq_refl eq_refl eq_refl eq_refl eq_refl eq_refl eq_refl eq_refl
           (or_introl (ex_intro _ 12 (conj Hsafe (conj eq_refl eq_refl))))).
Defined.
